(** * Course feedback dashboard (app.py): filtering, key metrics, chart tables

    A shallow embedding of the data pipeline of [app.py]: the three sidebar
    filters, the key metrics and the tables handed to the charts.  The
    script works on a pandas DataFrame; the pandas operations it calls are
    modelled here on lists of rows, one definition per operation, and each
    fragment of the script is a definition named after the variable it
    assigns.

    Modelling conventions.
    - The dataset has the four columns the script reads (Student_ID,
      Subject, Rating, Comment), so every [if "X" in data.columns] guard is
      taken.
    - A float64 cell is [option Q]: [None] is NaN (a missing value), [Some q]
      a finite value.  Comparisons with NaN are false, reductions skip NaN.
    - Student_ID is an integer column and Subject a string column without
      missing values; Comment is a string or missing.
    - A Python [str] is the [string] of its UTF-8 bytes.
    - The Streamlit widgets of the sidebar are a parameter of the script:
      functions that return the selection or raise.  The calls that draw
      the page (st.metric, plotly, matplotlib, WordCloud, st.dataframe)
      belong to the rendering layer and are outside the model: [app]
      gives the values the script computes and passes to them. *)

From Stdlib Require Import List ZArith QArith Qabs String Ascii Bool Lia Lqa.
From Stdlib Require Import Sorting.Sorted Permutation Qminmax.
Import ListNotations.

Local Open Scope Z_scope.

(** ** Data model *)

(** A float64 value; [None] is NaN. *)
Definition float := option Q.

Record Row := mkRow {
  Student_ID : Z;
  Subject : string;
  Rating : float;
  Comment : option string
}.

Definition DataFrame := list Row.

(** [data["X"]]: one column of the frame. *)
Definition col {A} (f : Row -> A) (data : DataFrame) : list A := map f data.

(** ** pandas: boolean masks *)

(** [data[mask]]: the rows at which the mask is True, in frame order. *)
Fixpoint bool_index {A} (data : list A) (mask : list bool) : list A :=
  match data, mask with
  | x :: data', b :: mask' =>
      if b then x :: bool_index data' mask' else bool_index data' mask'
  | _, _ => []
  end.

(** [m1 & m2] on two masks. *)
Fixpoint mask_and (m1 m2 : list bool) : list bool :=
  match m1, m2 with
  | a :: m1', b :: m2' => (a && b) :: mask_and m1' m2'
  | _, _ => []
  end.

(** Membership of a string in a Python list. *)
Definition mem_string (s : string) (values : list string) : bool :=
  existsb (String.eqb s) values.

(** [series.isin(values)]. *)
Definition isin (series : list string) (values : list string) : list bool :=
  map (fun s => mem_string s values) series.

(** Float comparison; false as soon as one side is NaN. *)
Definition float_ge (a b : float) : bool :=
  match a, b with
  | Some x, Some y => Qle_bool y x
  | _, _ => false
  end.

Definition float_le (a b : float) : bool :=
  match a, b with
  | Some x, Some y => Qle_bool x y
  | _, _ => false
  end.

(** [series >= x] and [series <= x] on a float column. *)
Definition ge_float (series : list float) (x : float) : list bool :=
  map (fun v => float_ge v x) series.
Definition le_float (series : list float) (x : float) : list bool :=
  map (fun v => float_le v x) series.

(** [series >= n] and [series <= n] on an integer column. *)
Definition ge_int (series : list Z) (n : Z) : list bool :=
  map (fun v => n <=? v) series.
Definition le_int (series : list Z) (n : Z) : list bool :=
  map (fun v => v <=? n) series.

(** ** The sidebar filters (app.py, lines 49-78) *)

(** The values the three widgets return. *)
Record Criteria := mkCriteria {
  subject_filter : list string;
  rating_range : float * float;
  student_id_range : Z * Z
}.

(** Truth value of a Python list: empty is false. *)
Definition truthy {A} (l : list A) : bool :=
  match l with [] => false | _ => true end.

(** Lines 56-57:
    [if subject_filter: data = data[data["Subject"].isin(subject_filter)]]. *)
Definition filter_subject (subject_filter : list string) (data : DataFrame)
  : DataFrame :=
  if truthy subject_filter
  then bool_index data (isin (col Subject data) subject_filter)
  else data.

(** Line 68:
    [data = data[(data["Rating"] >= rating_range[0])
                 & (data["Rating"] <= rating_range[1])]]. *)
Definition filter_rating (rating_range : float * float) (data : DataFrame)
  : DataFrame :=
  bool_index data
    (mask_and (ge_float (col Rating data) (fst rating_range))
              (le_float (col Rating data) (snd rating_range))).

(** Line 78:
    [data = data[(data["Student_ID"] >= student_id_range[0])
                 & (data["Student_ID"] <= student_id_range[1])]]. *)
Definition filter_student (student_id_range : Z * Z) (data : DataFrame)
  : DataFrame :=
  bool_index data
    (mask_and (ge_int (col Student_ID data) (fst student_id_range))
              (le_int (col Student_ID data) (snd student_id_range))).

(** The three assignments to [data], in the order of the script. *)
Definition apply_filters (c : Criteria) (data : DataFrame) : DataFrame :=
  filter_student (student_id_range c)
    (filter_rating (rating_range c)
      (filter_subject (subject_filter c) data)).

(** The row predicates the three masks compute. *)
Definition subject_ok (c : Criteria) (r : Row) : bool :=
  negb (truthy (subject_filter c)) || mem_string (Subject r) (subject_filter c).
Definition rating_ok (c : Criteria) (r : Row) : bool :=
  float_ge (Rating r) (fst (rating_range c))
  && float_le (Rating r) (snd (rating_range c)).
Definition student_ok (c : Criteria) (r : Row) : bool :=
  (fst (student_id_range c) <=? Student_ID r)
  && (Student_ID r <=? snd (student_id_range c)).

(** ** Python built-ins *)

Inductive exn := ValueError | StreamlitAPIException.

(** The outcome of a fragment that may raise. *)
Inductive result (A : Type) : Type :=
| Ok (a : A)
| Raise (e : exn).

Arguments Ok {A} a.
Arguments Raise {A} e.

Definition bind {A B} (m : result A) (k : A -> result B) : result B :=
  match m with
  | Ok a => k a
  | Raise e => Raise e
  end.

Notation "x <- m ;; k" := (bind m (fun x => k))
  (at level 61, m at next level, right associativity).

(** [int(x)] where [x] is the minimum or maximum of an integer column:
    a number, or NaN when the column is empty; [int(nan)] raises
    ValueError. *)
Definition int_ (x : option Z) : result Z :=
  match x with
  | Some n => Ok n
  | None => Raise ValueError
  end.

(** [len(x)]. *)
Definition len {A} (l : list A) : nat := List.length l.

(** Stable insertion sort by a boolean order: the result of [sorted], and
    of the sorts inside pandas on the short tables of this script.  An
    element stays in front of the later elements it ties with. *)
Section Sort.
Context {A : Type} (leb : A -> A -> bool).

Fixpoint insert (x : A) (l : list A) : list A :=
  match l with
  | [] => [x]
  | y :: l' => if leb x y then x :: l else y :: insert x l'
  end.

Definition sort (l : list A) : list A := fold_right insert [] l.

(** The order the sort produces, as a relation. *)
Definition before (x y : A) : Prop := leb x y = true.
End Sort.

(** [sorted(strings)]. *)
Definition sorted (l : list string) : list string := sort String.leb l.

(** Number of bytes of the UTF-8 character whose first byte is [c]. *)
Definition utf8_len (c : ascii) : nat :=
  let n := nat_of_ascii c in
  if (n <? 192)%nat then 1%nat
  else if (n <? 224)%nat then 2%nat
  else if (n <? 240)%nat then 3%nat
  else 4%nat.

(** The characters of a [str], each as the string of its bytes.  A last
    character that is cut short is kept as it is. *)
Fixpoint chars (s : string) : list string :=
  match s with
  | EmptyString => []
  | String c1 s1 =>
      match utf8_len c1 with
      | 1%nat => String c1 EmptyString :: chars s1
      | 2%nat =>
          match s1 with
          | String c2 s2 => String c1 (String c2 EmptyString) :: chars s2
          | _ => [s]
          end
      | 3%nat =>
          match s1 with
          | String c2 (String c3 s3) =>
              String c1 (String c2 (String c3 EmptyString)) :: chars s3
          | _ => [s]
          end
      | _ =>
          match s1 with
          | String c2 (String c3 (String c4 s4)) =>
              String c1 (String c2 (String c3 (String c4 EmptyString)))
              :: chars s4
          | _ => [s]
          end
      end
  end.

(** The code point of one character, from its UTF-8 bytes. *)
Definition code_point (ch : string) : N :=
  match map N_of_ascii (list_ascii_of_string ch) with
  | [b1] => b1
  | [b1; b2] => ((b1 mod 32) * 64 + b2 mod 64)%N
  | [b1; b2; b3] => ((b1 mod 16) * 4096 + (b2 mod 64) * 64 + b3 mod 64)%N
  | [b1; b2; b3; b4] =>
      ((b1 mod 8) * 262144 + (b2 mod 64) * 4096 + (b3 mod 64) * 64
       + b4 mod 64)%N
  | _ => 0%N
  end.

(** Whitespace as [str.strip()] and [str.isspace()] see it: the code
    points 9-13, 28-32, 0x85, 0xA0, 0x1680, 0x2000-0x200A, 0x2028, 0x2029,
    0x202F, 0x205F and 0x3000. *)
Definition is_space (ch : string) : bool :=
  let n := code_point ch in
  ((9 <=? n) && (n <=? 13) || (28 <=? n) && (n <=? 32)
   || (n =? 133) || (n =? 160) || (n =? 5760)
   || (8192 <=? n) && (n <=? 8202)
   || (n =? 8232) || (n =? 8233) || (n =? 8239) || (n =? 8287)
   || (n =? 12288))%N.

(** Leading, and trailing, whitespace characters removed. *)
Fixpoint lstrip (l : list string) : list string :=
  match l with
  | [] => []
  | ch :: l' => if is_space ch then lstrip l' else l
  end.

Fixpoint rstrip (l : list string) : list string :=
  match l with
  | [] => []
  | ch :: l' =>
      match rstrip l' with
      | [] => if is_space ch then [] else [ch]
      | t => ch :: t
      end
  end.

(** [s.strip()]. *)
Definition strip (s : string) : string :=
  String.concat EmptyString (rstrip (lstrip (chars s))).

(** Truth value of a Python string: empty is false. *)
Definition truthy_str (s : string) : bool :=
  match s with EmptyString => false | _ => true end.

(** ** float64 rounding *)

(** Nearest integer to [p / q] for [q > 0], ties to even. *)
Definition round_half_even (p q : Z) : Z :=
  let f := p / q in
  match 2 * (p mod q) ?= q with
  | Lt => f
  | Gt => f + 1
  | Eq => if Z.even f then f else f + 1
  end.

(** Rounding of the positive rational [n / d] to a 53-bit significand:
    the quotient is scaled by [2 ^ s] into the interval from [2 ^ 52] to
    [2 ^ 53], rounded to an integer [m], and [m / 2 ^ s] is returned. *)
Definition rnd_pos (n d : positive) : Q :=
  let a := Z.log2 (Zpos n) in
  let b := Z.log2 (Zpos d) in
  let P := Zpos n * 2 ^ (b + 53) in
  let Q0 := Zpos d * 2 ^ a in
  let '(Qd, s) :=
    if 2 ^ 53 * Q0 <=? P then (2 * Q0, b + 52 - a) else (Q0, b + 53 - a) in
  let m := round_half_even P Qd in
  Qred (if 0 <=? s then m # Z.to_pos (2 ^ s) else (m * 2 ^ (- s)) # 1).

(** Round to nearest, ties to even, with the precision of float64.  The
    exponent is unbounded here: the model is float64 on results whose
    magnitude is zero or between [2 ^ -1022] and [2 ^ 1024], which covers
    every quotient this script computes. *)
Definition rnd (x : Q) : Q :=
  match Qnum x with
  | Z0 => 0%Q
  | Zpos n => rnd_pos n (Qden x)
  | Zneg n => Qopp (rnd_pos n (Qden x))
  end.

(** ** pandas: reductions and grouping *)

(** First occurrences, in order of appearance ([Series.unique()]), and the
    number of occurrences of a key, for an equality test [eqb]. *)
Section Unique.
Context {A : Type} (eqb : A -> A -> bool).

Fixpoint unique (l : list A) : list A :=
  match l with
  | [] => []
  | x :: l' => x :: filter (fun y => negb (eqb x y)) (unique l')
  end.

Definition count (x : A) (l : list A) : nat := List.length (filter (eqb x) l).
End Unique.

(** [Series.nunique()] on a column without missing values. *)
Definition nunique {A} (eqb : A -> A -> bool) (series : list A) : nat :=
  len (unique eqb series).

(** [Series.notna()]. *)
Definition notna {A} (series : list (option A)) : list bool :=
  map (fun v => match v with Some _ => true | None => false end) series.

(** The values of a float column that are not NaN. *)
Fixpoint dropna (series : list float) : list Q :=
  match series with
  | [] => []
  | Some q :: s' => q :: dropna s'
  | None :: s' => dropna s'
  end.

(** [Series.min()] and [Series.max()] of a float column: NaN is skipped,
    and the result is NaN when nothing is left. *)
Definition series_min (series : list float) : float :=
  match dropna series with
  | [] => None
  | x :: l => Some (fold_left (fun m y => if Qle_bool m y then m else y) l x)
  end.

Definition series_max (series : list float) : float :=
  match dropna series with
  | [] => None
  | x :: l => Some (fold_left (fun m y => if Qle_bool y m then m else y) l x)
  end.

(** [Series.min()] and [Series.max()] of an integer column; NaN ([None])
    on an empty column. *)
Definition int_min (series : list Z) : option Z :=
  match series with
  | [] => None
  | x :: l => Some (fold_left Z.min l x)
  end.

Definition int_max (series : list Z) : option Z :=
  match series with
  | [] => None
  | x :: l => Some (fold_left Z.max l x)
  end.

Definition Qsum (l : list Q) : Q := fold_right Qplus 0%Q l.

(** [Series.mean()]: NaN is skipped; NaN when nothing is left.  The sum
    is taken exactly and the quotient is rounded.  This is the float64
    value pandas computes when the ratings are multiples of 0.5, as the
    step of the rating slider has them: their float64 sums are exact in
    any order.  On other ratings pandas rounds the partial sums too, and
    its result can differ from this one in the last bits; the theorems
    below use of a mean only whether it is NaN. *)
Definition mean (series : list float) : float :=
  match dropna series with
  | [] => None
  | l => Some (rnd (Qsum l / inject_Z (Z.of_nat (len l))))
  end.

(** [Series.value_counts()]: one row per distinct value, counted in order
    of first appearance and then sorted by count, largest first, with a
    stable sort. *)
Definition value_counts (series : list string) : list (string * nat) :=
  sort (fun a b => (snd b <=? snd a)%nat)
       (map (fun k => (k, count String.eqb k series)) (unique String.eqb series)).

(** [Series.head(n)]. *)
Definition head {A} (n : nat) (l : list A) : list A := firstn n l.

(** The group keys of [groupby]: the distinct key values in ascending order
    ([sort=True], the default). *)
Definition groupby_keys {A} (eqb leb : A -> A -> bool) (keys : list A) : list A :=
  sort leb (unique eqb keys).

(** ** Key metrics (app.py, lines 91-99) *)

Record Metrics := mkMetrics {
  total_feedbacks : nat;
  avg_rating : float;
  unique_subjects : nat;
  total_students : nat;
  total_comments : nat
}.

Definition key_metrics (data : DataFrame) : Metrics :=
  {| total_feedbacks := len data;
     avg_rating := mean (col Rating data);
     unique_subjects := nunique String.eqb (col Subject data);
     total_students := nunique Z.eqb (col Student_ID data);
     total_comments := len (bool_index data (notna (col Comment data))) |}.

(** ** Chart tables *)

(** Line 125: [data["Subject"].value_counts()]. *)
Definition subject_counts (data : DataFrame) : list (string * nat) :=
  value_counts (col Subject data).

(** The rows of one group. *)
Definition group_of_subject (s : string) (data : DataFrame) : DataFrame :=
  filter (fun r => String.eqb s (Subject r)) data.
Definition group_of_student (k : Z) (data : DataFrame) : DataFrame :=
  filter (fun r => Z.eqb k (Student_ID r)) data.

(** Order of [sort_values] on a float column: ascending, NaN last. *)
Definition float_leb_nan_last (a b : float) : bool :=
  match a, b with
  | Some x, Some y => Qle_bool x y
  | Some _, None => true
  | None, Some _ => false
  | None, None => true
  end.

(** Line 141: [data.groupby("Subject")["Rating"].agg(['mean', 'count'])
    .sort_values('mean')]; a row is (subject, mean, count of ratings).
    The sort is modelled as stable; the default sort of [sort_values] may
    order rows of equal mean otherwise, and the theorems below fix no order
    among them. *)
Definition subject_avg (data : DataFrame) : list (string * (float * nat)) :=
  sort (fun a b => float_leb_nan_last (fst (snd a)) (fst (snd b)))
       (map (fun s =>
               let ratings := col Rating (group_of_subject s data) in
               (s, (mean ratings, len (dropna ratings))))
            (groupby_keys String.eqb String.leb (col Subject data))).

(** Line 156: [data.groupby("Student_ID")["Rating"].mean().head(20)]. *)
Definition student_avg (data : DataFrame) : list (Z * float) :=
  head 20
    (map (fun k => (k, mean (col Rating (group_of_student k data))))
         (groupby_keys Z.eqb Z.leb (col Student_ID data))).

(** The (subject, rating) pairs of the rows whose rating is not NaN;
    grouping by rating drops the other rows. *)
Fixpoint observed (data : DataFrame) : list (string * Q) :=
  match data with
  | [] => []
  | r :: data' =>
      match Rating r with
      | Some q => (Subject r, q) :: observed data'
      | None => observed data'
      end
  end.

(** Number of observed pairs with subject [s], and with subject [s] and
    rating [v]. *)
Definition row_total (s : string) (obs : list (string * Q)) : nat :=
  len (filter (fun p => String.eqb s (fst p)) obs).
Definition cell_count (s : string) (v : Q) (obs : list (string * Q)) : nat :=
  len (filter (fun p => String.eqb s (fst p) && Qeq_bool v (snd p)) obs).

(** Line 172: [data.groupby(["Subject", "Rating"]).size()
    .reset_index(name='Count')]: one row per pair that occurs, ordered by
    subject and then by rating. *)
Definition subject_rating_counts (data : DataFrame) : list (string * Q * nat) :=
  let obs := observed data in
  flat_map
    (fun s =>
       map (fun v => (s, v, cell_count s v obs))
           (groupby_keys Qeq_bool Qle_bool
              (map snd (filter (fun p => String.eqb s (fst p)) obs))))
    (groupby_keys String.eqb String.leb (map fst obs)).

(** Line 184: [data["Subject"].value_counts().head(15)]. *)
Definition subject_counts_bar (data : DataFrame) : list (string * nat) :=
  head 15 (value_counts (col Subject data)).

(** One cell of the normalised table: the float64 quotient of two counts,
    times 100. *)
Definition percentage (c t : nat) : Q :=
  rnd (rnd (inject_Z (Z.of_nat c) / inject_Z (Z.of_nat t)) * 100).

(** Line 203: [pd.crosstab(data["Subject"], data["Rating"],
    normalize='index') * 100]: one row per subject and one column per
    rating value that occur together with a rating present, both in
    ascending order; a cell is the share of the rating in the subject's
    row. *)
Definition rating_subject (data : DataFrame) : list (string * list (Q * Q)) :=
  let obs := observed data in
  let columns := groupby_keys Qeq_bool Qle_bool (map snd obs) in
  map (fun s =>
         (s, map (fun v => (v, percentage (cell_count s v obs) (row_total s obs)))
                 columns))
      (groupby_keys String.eqb String.leb (map fst obs)).

(** Line 228: the comments joined for the word cloud,
    [c for c in data["Comment"] if pd.notna(c) and str(c).strip()]. *)
Definition has_text (c : option string) : bool :=
  match c with
  | Some s => truthy_str (strip s)
  | None => false
  end.

Definition comments_kept (data : DataFrame) : list string :=
  flat_map (fun r => if has_text (Comment r)
                     then match Comment r with Some s => [s] | None => [] end
                     else [])
           data.

Definition comments_text (data : DataFrame) : string :=
  String.concat " " (comments_kept data).

(** ** The script *)

(** The sidebar widgets, a parameter of the script.  A call is given the
    arguments the script passes (the options and the default of the
    multiselect; the minimum, the maximum and the default of a slider) and
    returns what the user selected, or raises when Streamlit rejects the
    call. *)
Record Widgets := mkWidgets {
  multiselect : list string -> list string -> result (list string);
  slider_float : float -> float -> float * float -> result (float * float);
  slider_int : Z -> Z -> Z * Z -> result (Z * Z)
}.

(** Strict float comparison; false as soon as one side is NaN. *)
Definition float_lt (a b : float) : bool :=
  match a, b with
  | Some x, Some y => negb (Qle_bool y x)
  | _, _ => false
  end.

(** The numbers Streamlit accepts as slider bounds: integers of magnitude
    at most [2 ^ 53 - 1], floats of magnitude at most 1.797e308. *)
Definition js_int (n : Z) : bool :=
  (- (2 ^ 53 - 1) <=? n) && (n <=? 2 ^ 53 - 1).

Definition js_float (x : float) : bool :=
  match x with
  | Some q => Qle_bool (inject_Z (- (1797 * 10 ^ 305))) q
              && Qle_bool q (inject_Z (1797 * 10 ^ 305))
  | None => false
  end.

(** The checks of a slider call: Streamlit raises unless the minimum is
    below the maximum and both are numbers it accepts.  (A NaN bound is
    rejected here.  It arises only on a frame without any rating, where
    the run raises in any case, at the latest at line 74; nothing below
    depends on which of the two it is.) *)
Definition check_slider_float (lo hi : float) : result unit :=
  if float_lt lo hi && js_float lo && js_float hi
  then Ok tt else Raise StreamlitAPIException.

Definition check_slider_int (lo hi : Z) : result unit :=
  if (lo <? hi) && js_int lo && js_int hi
  then Ok tt else Raise StreamlitAPIException.

(** The widgets of a session in which the user leaves every widget at its
    default: all subjects, and both sliders spanning their full range. *)
Definition untouched : Widgets :=
  {| multiselect := fun _ default => Ok default;
     slider_float := fun lo hi value =>
       _ <- check_slider_float lo hi ;; Ok value;
     slider_int := fun lo hi value =>
       _ <- check_slider_int lo hi ;; Ok value |}.

(** The widgets of a session in which the user sets the widgets to the
    values of [c] (values that the widgets offer: subjects among the
    options, ranges within the bounds). *)
Definition choosing (c : Criteria) : Widgets :=
  {| multiselect := fun _ _ => Ok (subject_filter c);
     slider_float := fun lo hi _ =>
       _ <- check_slider_float lo hi ;; Ok (rating_range c);
     slider_int := fun lo hi _ =>
       _ <- check_slider_int lo hi ;; Ok (student_id_range c) |}.

(** Lines 49-78: the sidebar.  The bounds of each slider are computed from
    the frame as filtered so far. *)
Definition sidebar (w : Widgets) (data : DataFrame) : result DataFrame :=
  subject_filter <-
    multiselect w (sorted (unique String.eqb (col Subject data)))
                  (unique String.eqb (col Subject data)) ;;
  let data := filter_subject subject_filter data in
  let lo := series_min (col Rating data) in
  let hi := series_max (col Rating data) in
  rating_range <- slider_float w lo hi (lo, hi) ;;
  let data := filter_rating rating_range data in
  lo <- int_ (int_min (col Student_ID data)) ;;
  hi <- int_ (int_max (col Student_ID data)) ;;
  student_id_range <- slider_int w lo hi (lo, hi) ;;
  Ok (filter_student student_id_range data).

(** Widgets that return their default whenever they return: the user
    touches nothing, whatever Streamlit accepts. *)
Definition returns_default (w : Widgets) : Prop :=
  (forall options default sel,
     multiselect w options default = Ok sel -> sel = default)
  /\ (forall lo hi value sel, slider_float w lo hi value = Ok sel -> sel = value)
  /\ (forall lo hi value sel, slider_int w lo hi value = Ok sel -> sel = value).


(** The values one run of the script computes from the filtered frame and
    passes to the calls that draw the page. *)
Record Dashboard := mkDashboard {
  view : DataFrame;
  metrics : Metrics;
  pie_table : list (string * nat);
  subject_avg_table : list (string * (float * nat));
  student_avg_table : list (Z * float);
  subject_rating_counts_table : list (string * Q * nat);
  bar_table : list (string * nat);
  rating_subject_table : list (string * list (Q * Q));
  wordcloud_text : string
}.

Definition render (data : DataFrame) : Dashboard :=
  {| view := data;
     metrics := key_metrics data;
     pie_table := subject_counts data;
     subject_avg_table := subject_avg data;
     student_avg_table := student_avg data;
     subject_rating_counts_table := subject_rating_counts data;
     bar_table := subject_counts_bar data;
     rating_subject_table := rating_subject data;
     wordcloud_text := comments_text data |}.

(** The script on a loaded dataset, up to the calls that draw the page:
    [Ok out] says that the sidebar returned and that [out] holds the
    values computed from the filtered frame; [Raise e] says that the
    sidebar raised [e].  Drawing is outside the model, so [Ok out] does not
    say that plotly or WordCloud accepted what they were given. *)
Definition app (w : Widgets) (original_data : DataFrame) : result Dashboard :=
  data <- sidebar w original_data ;;
  Ok (render data).

(** ** Order-preserving sub-collections *)

(** [subseq l1 l2]: [l1] is [l2] with some elements deleted. *)
Inductive subseq {A : Type} : list A -> list A -> Prop :=
| subseq_nil : subseq [] []
| subseq_skip x l1 l2 : subseq l1 l2 -> subseq l1 (x :: l2)
| subseq_keep x l1 l2 : subseq l1 l2 -> subseq (x :: l1) (x :: l2).

(** ** Accuracy of float64 *)

(** Half a unit in the last place of a value between 1 and 2: the largest
    relative error of one rounding. *)
Definition u : Q := 1 # 9007199254740992.

(** The exact quotient of two counts. *)
Definition share (c t : nat) : Q :=
  inject_Z (Z.of_nat c) / inject_Z (Z.of_nat t).

(** ** The orders the claims speak of *)

(** The table of counts before it is sorted: one row per distinct subject,
    in the order in which the subjects first appear. *)
Definition first_seen_counts (data : DataFrame) : list (string * nat) :=
  map (fun k => (k, count String.eqb k (col Subject data)))
      (unique String.eqb (col Subject data)).

(** Larger count first. *)
Definition count_desc (a b : string * nat) : Prop := (snd b <= snd a)%nat.

(** Larger count first and, at equal counts, the smaller subject name
    first: the order that breaks ties by name. *)
Definition count_desc_name_asc (a b : string * nat) : Prop :=
  (snd b < snd a)%nat \/ (snd a = snd b /\ String.leb (fst a) (fst b) = true).

(** The per-student table with the groups in the order in which the
    identifiers first appear in the frame. *)
Definition student_avg_first_seen (data : DataFrame) : list (Z * float) :=
  head 20
    (map (fun k => (k, mean (col Rating (group_of_student k data))))
         (unique Z.eqb (col Student_ID data))).

(** ** Sample data *)

(** The rows whose rating is present. *)
Definition rated (r : Row) : bool :=
  match Rating r with Some _ => true | None => false end.

(** Frames used as concrete inputs. *)

(** Three rows, the first without a rating. *)
Definition unrated_sample : DataFrame :=
  [ mkRow 1 "Math" None (Some "good"%string);
    mkRow 2 "Math" (Some 4%Q) None;
    mkRow 3 "Art" (Some 5%Q) (Some "ok"%string) ].

(** Two rows, the first with a comment of three spaces. *)
Definition blank_comment_sample : DataFrame :=
  [ mkRow 1 "Math" (Some 4%Q) (Some "   "%string);
    mkRow 2 "Art" (Some 5%Q) (Some "fine"%string) ].

(** Two rows rated 1.0 and 5.0, and a user who moves the rating slider
    to the range from 2.0 to 3.0. *)
Definition two_ratings_sample : DataFrame :=
  [ mkRow 1 "Math" (Some 1%Q) (Some "poor"%string);
    mkRow 2 "Math" (Some 5%Q) (Some "great"%string) ].

Definition middle_ratings : Criteria :=
  {| subject_filter := ["Math"%string];
     rating_range := (Some 2%Q, Some 3%Q);
     student_id_range := (1, 2) |}.

(** The same rows, and a user who moves the student slider between the
    two identifiers that occur. *)
Definition two_students_sample : DataFrame :=
  [ mkRow 1 "Math" (Some 1%Q) (Some "poor"%string);
    mkRow 10 "Math" (Some 5%Q) (Some "great"%string) ].

Definition middle_students : Criteria :=
  {| subject_filter := ["Math"%string];
     rating_range := (Some 1%Q, Some 5%Q);
     student_id_range := (3, 5) |}.


Definition sample : DataFrame :=
  [ mkRow 1 "Math" (Some 4%Q) (Some "good"%string);
    mkRow 2 "Math" (Some 5%Q) None;
    mkRow 3 "Art" (Some 3%Q) (Some "ok"%string) ].


(** Two subjects with one row each, the later name first. *)
Definition tie_sample : DataFrame :=
  [ mkRow 1 "Math" (Some 4%Q) None;
    mkRow 2 "Art" (Some 3%Q) None ].

(** Two students, the larger identifier first. *)
Definition out_of_order_sample : DataFrame :=
  [ mkRow 2 "Math" (Some 4%Q) None;
    mkRow 1 "Math" (Some 3%Q) None ].

(** * Facts *)

#[local] Hint Constructors subseq : core.

Section MaskFacts.
Context {A : Type}.

Lemma bool_index_map (p : A -> bool) (l : list A) :
  bool_index l (map p l) = filter p l.
Proof.
  induction l as [|x l IH]; simpl; [reflexivity|].
  rewrite IH. reflexivity.
Qed.

Lemma mask_and_map {B C} (f : B -> bool) (g : C -> bool) (h1 : A -> B)
      (h2 : A -> C) (l : list A) :
  mask_and (map f (map h1 l)) (map g (map h2 l))
  = map (fun x => f (h1 x) && g (h2 x)) l.
Proof.
  induction l as [|x l IH]; simpl; [reflexivity|].
  rewrite IH. reflexivity.
Qed.

Lemma subseq_refl (l : list A) : subseq l l.
Proof. induction l; auto. Qed.

Lemma subseq_trans (l1 l2 l3 : list A) :
  subseq l1 l2 -> subseq l2 l3 -> subseq l1 l3.
Proof.
  intros H12 H23. revert l1 H12.
  induction H23 as [|x l2 l3 H23 IH|x l2 l3 H23 IH]; intros l1 H12.
  - exact H12.
  - constructor. apply IH. exact H12.
  - inversion H12; subst; auto.
Qed.

Lemma subseq_filter (p : A -> bool) (l : list A) : subseq (filter p l) l.
Proof.
  induction l as [|x l IH]; simpl; auto.
  destruct (p x); auto.
Qed.

Lemma subseq_In (l1 l2 : list A) :
  subseq l1 l2 -> forall x, In x l1 -> In x l2.
Proof.
  induction 1 as [|y l1 l2 _ IH|y l1 l2 _ IH]; simpl; intros z Hz; auto.
  destruct Hz as [->|Hz]; auto.
Qed.

Lemma subseq_length (l1 l2 : list A) :
  subseq l1 l2 -> (List.length l1 <= List.length l2)%nat.
Proof. induction 1; simpl; lia. Qed.

Lemma filter_filter (p q : A -> bool) (l : list A) :
  filter p (filter q l) = filter (fun x => q x && p x) l.
Proof.
  induction l as [|x l IH]; simpl; [reflexivity|].
  destruct (q x); simpl; rewrite IH; reflexivity.
Qed.

Lemma filter_true (p : A -> bool) (l : list A) :
  (forall x, In x l -> p x = true) -> filter p l = l.
Proof.
  induction l as [|x l IH]; simpl; intros H; [reflexivity|].
  rewrite (H x (or_introl eq_refl)). f_equal. apply IH. auto.
Qed.

Lemma filter_false (p : A -> bool) (l : list A) :
  (forall x, In x l -> p x = false) -> filter p l = [].
Proof.
  induction l as [|x l IH]; simpl; intros H; [reflexivity|].
  rewrite (H x (or_introl eq_refl)). apply IH. auto.
Qed.
End MaskFacts.

(** Each filter line is a [filter] by its row predicate. *)
Lemma filter_subject_spec sf data :
  filter_subject sf data
  = filter (fun r => negb (truthy sf) || mem_string (Subject r) sf) data.
Proof.
  unfold filter_subject, isin, col. destruct (truthy sf) eqn:E; simpl.
  - rewrite map_map. apply (bool_index_map (fun r => mem_string (Subject r) sf)).
  - symmetry. apply filter_true. reflexivity.
Qed.

Lemma filter_rating_spec rr data :
  filter_rating rr data
  = filter (fun r => float_ge (Rating r) (fst rr) && float_le (Rating r) (snd rr))
           data.
Proof.
  unfold filter_rating, ge_float, le_float, col.
  rewrite (mask_and_map (fun v => float_ge v (fst rr))
                        (fun v => float_le v (snd rr)) Rating Rating).
  apply bool_index_map.
Qed.

Lemma filter_student_spec sr data :
  filter_student sr data
  = filter (fun r => (fst sr <=? Student_ID r) && (Student_ID r <=? snd sr)) data.
Proof.
  unfold filter_student, ge_int, le_int, col.
  rewrite (mask_and_map (fun v => fst sr <=? v) (fun v => v <=? snd sr)
                        Student_ID Student_ID).
  apply bool_index_map.
Qed.

Lemma apply_filters_spec c data :
  apply_filters c data
  = filter (fun r => subject_ok c r && rating_ok c r && student_ok c r) data.
Proof.
  unfold apply_filters.
  rewrite filter_student_spec, filter_rating_spec, filter_subject_spec.
  rewrite !filter_filter. apply filter_ext. intros r.
  unfold subject_ok, rating_ok, student_ok. rewrite !andb_assoc. reflexivity.
Qed.

Lemma mem_string_In s values : mem_string s values = true <-> In s values.
Proof.
  unfold mem_string. rewrite existsb_exists. split.
  - intros [x [Hx E]]. apply String.eqb_eq in E. subst. exact Hx.
  - intros H. exists s. split; [exact H | apply String.eqb_refl].
Qed.

(** ** Sorting *)

Section SortFacts.
Context {A : Type} (leb : A -> A -> bool).

Lemma insert_perm (x : A) (l : list A) : Permutation (insert leb x l) (x :: l).
Proof.
  induction l as [|y l IH]; simpl; [reflexivity|].
  destruct (leb x y); [reflexivity|].
  rewrite IH. apply perm_swap.
Qed.

Lemma sort_perm (l : list A) : Permutation (sort leb l) l.
Proof.
  induction l as [|x l IH]; simpl; [reflexivity|].
  rewrite insert_perm. constructor. exact IH.
Qed.

Lemma sort_In (l : list A) (x : A) : In x (sort leb l) <-> In x l.
Proof.
  split; apply Permutation_in; [|symmetry]; apply sort_perm.
Qed.

Lemma sort_length (l : list A) : List.length (sort leb l) = List.length l.
Proof. apply Permutation_length, sort_perm. Qed.

Lemma sort_NoDup (l : list A) : NoDup l -> NoDup (sort leb l).
Proof. apply Permutation_NoDup. symmetry. apply sort_perm. Qed.

Hypothesis leb_total : forall x y, leb x y = true \/ leb y x = true.
Hypothesis leb_trans :
  forall x y z, leb x y = true -> leb y z = true -> leb x z = true.

Lemma insert_sorted (x : A) (l : list A) :
  StronglySorted (before leb) l -> StronglySorted (before leb) (insert leb x l).
Proof.
  induction 1 as [|y l Hl IH Hy]; simpl.
  - constructor; constructor.
  - destruct (leb x y) eqn:E.
    + constructor; [constructor; assumption|].
      constructor; [exact E|].
      rewrite Forall_forall in *. intros z Hz.
      unfold before in *. eapply leb_trans; [exact E | auto].
    + constructor; [exact IH|].
      rewrite Forall_forall in *. intros z Hz.
      apply (Permutation_in _ (insert_perm x l)) in Hz.
      destruct Hz as [<-|Hz]; [|auto].
      unfold before. destruct (leb_total x y) as [H|H]; congruence.
Qed.

Lemma sort_sorted (l : list A) : StronglySorted (before leb) (sort leb l).
Proof.
  induction l as [|x l IH]; simpl; [constructor|].
  apply insert_sorted, IH.
Qed.
End SortFacts.

(** ** Distinct values *)

Section UniqueFacts.
Context {A : Type} (eqb : A -> A -> bool).
Hypothesis eqb_eq : forall x y, eqb x y = true <-> x = y.

Lemma unique_In (l : list A) (x : A) : In x (unique eqb l) <-> In x l.
Proof.
  induction l as [|y l IH]; simpl; [tauto|].
  rewrite filter_In, IH. split.
  - intros [H|[H _]]; auto.
  - intros [H|H]; auto.
    destruct (eqb y x) eqn:E.
    + left. apply eqb_eq. exact E.
    + right. split; [exact H | reflexivity].
Qed.

Lemma unique_NoDup (l : list A) : NoDup (unique eqb l).
Proof.
  induction l as [|y l IH]; simpl; constructor.
  - rewrite filter_In. intros [_ H].
    assert (E : eqb y y = true) by (apply eqb_eq; reflexivity).
    rewrite E in H. discriminate.
  - apply NoDup_filter. exact IH.
Qed.

Lemma unique_subseq (l : list A) : subseq (unique eqb l) l.
Proof.
  induction l as [|y l IH]; simpl; [auto|].
  apply subseq_keep. eapply subseq_trans; [apply subseq_filter | exact IH].
Qed.
End UniqueFacts.

(** * The filters *)

(** Whatever the widgets return, a run of the sidebar that does not raise
    ends with the three filter lines applied to the values the widgets
    returned. *)
Lemma sidebar_is_apply_filters (w : Widgets) (data out : DataFrame) :
  sidebar w data = Ok out -> exists c, out = apply_filters c data.
Proof.
  unfold sidebar.
  destruct (multiselect w _ _) as [sf|e]; [|discriminate]. cbn [bind].
  set (d1 := filter_subject sf data).
  destruct (slider_float w _ _ _) as [rr|e]; [|discriminate]. cbn [bind].
  set (d2 := filter_rating rr d1).
  destruct (int_ (int_min (col Student_ID d2))) as [lo|e]; [|discriminate].
  destruct (int_ (int_max (col Student_ID d2))) as [hi|e]; [|discriminate].
  cbn [bind].
  destruct (slider_int w lo hi (lo, hi)) as [sr|e]; [|discriminate].
  cbn [bind]. intros H. injection H as <-.
  exists {| subject_filter := sf; rating_range := rr; student_id_range := sr |}.
  reflexivity.
Qed.

(** C1.  For every frame and every choice of the three widgets, the rows
    left by the three filter lines are rows of the frame, in the order they
    have in the frame: the result is the frame with some rows deleted.  The
    same holds of the frame a run of the sidebar ends with. *)
Theorem apply_filters_subseq (data : DataFrame) :
  (forall c, subseq (apply_filters c data) data)
  /\ (forall c r, In r (apply_filters c data) -> In r data)
  /\ (forall w out, sidebar w data = Ok out -> subseq out data).
Proof.
  assert (H : forall c, subseq (apply_filters c data) data).
  { intros c. rewrite apply_filters_spec. apply subseq_filter. }
  split; [exact H|]. split.
  - intros c. apply subseq_In, H.
  - intros w out Hrun. apply sidebar_is_apply_filters in Hrun.
    destruct Hrun as [c ->]. apply H.
Qed.

(** C7.  The three filter lines keep exactly the rows that pass the three
    tests together, and applying the lines in any of the six orders gives
    the same frame. *)
Theorem filters_order_independent (c : Criteria) (data : DataFrame) :
  let S := filter_subject (subject_filter c) in
  let R := filter_rating (rating_range c) in
  let T := filter_student (student_id_range c) in
  T (R (S data))
  = filter (fun r => subject_ok c r && rating_ok c r && student_ok c r) data
  /\ T (S (R data)) = T (R (S data))
  /\ R (T (S data)) = T (R (S data))
  /\ R (S (T data)) = T (R (S data))
  /\ S (T (R data)) = T (R (S data))
  /\ S (R (T data)) = T (R (S data)).
Proof.
  cbv zeta.
  rewrite !filter_student_spec, !filter_rating_spec, !filter_subject_spec.
  rewrite !filter_filter.
  repeat split; apply filter_ext; intros r;
    unfold subject_ok, rating_ok, student_ok;
    destruct (negb (truthy (subject_filter c))
              || mem_string (Subject r) (subject_filter c));
    destruct (float_ge (Rating r) (fst (rating_range c)));
    destruct (float_le (Rating r) (snd (rating_range c)));
    destruct (fst (student_id_range c) <=? Student_ID r);
    destruct (Student_ID r <=? snd (student_id_range c)); reflexivity.
Qed.

(** C9.  An empty selection of subjects keeps every row, and so does a
    selection that holds every subject of the frame (the default of the
    widget among them); a selection that is not empty keeps exactly the
    rows whose subject it holds. *)
Theorem subject_filter_policy (data : DataFrame) :
  filter_subject [] data = data
  /\ (forall sf, (forall r, In r data -> In (Subject r) sf) ->
                 filter_subject sf data = data)
  /\ filter_subject (unique String.eqb (col Subject data)) data = data
  /\ filter_subject (sorted (unique String.eqb (col Subject data))) data = data
  /\ (forall sf, sf <> [] ->
        filter_subject sf data
        = filter (fun r => mem_string (Subject r) sf) data
        /\ forall r, In r (filter_subject sf data)
                     <-> In r data /\ In (Subject r) sf).
Proof.
  assert (All : forall sf, (forall r, In r data -> In (Subject r) sf) ->
                           filter_subject sf data = data).
  { intros sf H. rewrite filter_subject_spec. apply filter_true.
    intros r Hr. apply orb_true_iff. right. apply mem_string_In. auto. }
  split; [reflexivity|]. split; [exact All|].
  split; [|split].
  - apply All. intros r Hr. apply (unique_In _ String.eqb_eq).
    unfold col. apply in_map. exact Hr.
  - apply All. intros r Hr. apply sort_In. apply (unique_In _ String.eqb_eq).
    unfold col. apply in_map. exact Hr.
  - intros sf Hsf.
    assert (E : filter_subject sf data
                = filter (fun r => mem_string (Subject r) sf) data).
    { rewrite filter_subject_spec. apply filter_ext. intros r.
      destruct sf; [congruence | reflexivity]. }
    split; [exact E|]. intros r. rewrite E, filter_In, mem_string_In. tauto.
Qed.

(** ** float64 rounding *)

Lemma round_half_even_error p q :
  0 < q -> 2 * Z.abs (round_half_even p q * q - p) <= q.
Proof.
  intros Hq. unfold round_half_even.
  pose proof (Z.div_mod p q ltac:(lia)) as E.
  pose proof (Z.mod_pos_bound p q Hq) as B.
  set (f := p / q) in *. set (r := p mod q) in *.
  clearbody f r.
  assert (E0 : f * q - p = - r) by (rewrite E; ring).
  assert (E1 : (f + 1) * q - p = q - r) by (rewrite E; ring).
  destruct (Z.compare_spec (2 * r) q) as [C|C|C].
  - destruct (Z.even f); [rewrite E0 | rewrite E1]; lia.
  - rewrite E0. lia.
  - rewrite E1. lia.
Qed.

Lemma round_half_even_nonneg p q : 0 < q -> 0 <= p -> 0 <= round_half_even p q.
Proof.
  intros Hq Hp. unfold round_half_even.
  pose proof (Z.div_pos p q Hp Hq).
  destruct (2 * (p mod q) ?= q); [destruct (Z.even _)| |]; lia.
Qed.

(** The result of [rnd_pos n d] as a fraction [M / D], with its distance to
    [n / d] in integers. *)
Lemma rnd_pos_core (n d : positive) :
  exists (M : Z) (D : positive),
    0 <= M /\ rnd_pos n d == M # D /\
    Z.abs (M * Zpos d - Zpos n * Zpos D) * 2 ^ 53 <= Zpos n * Zpos D.
Proof.
  unfold rnd_pos.
  set (a := Z.log2 (Zpos n)). set (b := Z.log2 (Zpos d)).
  assert (Ha : 0 <= a) by apply Z.log2_nonneg.
  assert (Hb : 0 <= b) by apply Z.log2_nonneg.
  destruct (Z.log2_spec (Zpos n) ltac:(lia)) as [Hn1 Hn2].
  destruct (Z.log2_spec (Zpos d) ltac:(lia)) as [Hd1 Hd2].
  fold a in Hn1, Hn2. fold b in Hd1, Hd2.
  rewrite Z.pow_succ_r in Hn2, Hd2 by assumption.
  assert (HA : 0 < 2 ^ a) by (apply Z.pow_pos_nonneg; lia).
  assert (HB : 0 < 2 ^ b) by (apply Z.pow_pos_nonneg; lia).
  set (P := Zpos n * 2 ^ (b + 53)).
  set (Q0 := Zpos d * 2 ^ a).
  assert (HP : P = Zpos n * 2 ^ b * 2 ^ 53).
  { unfold P. rewrite Z.pow_add_r by lia. ring. }
  (* choose Qd, s *)
  assert (Hcase : exists Qd s,
             (if 2 ^ 53 * Q0 <=? P then (2 * Q0, b + 52 - a) else (Q0, b + 53 - a))
             = (Qd, s)
             /\ 0 < Qd /\ 2 ^ 52 * Qd <= P
             /\ (0 <= s -> P * Zpos d = Zpos n * Qd * 2 ^ s)
             /\ (s < 0 -> P * Zpos d * 2 ^ (- s) = Zpos n * Qd)).
  { destruct (2 ^ 53 * Q0 <=? P) eqn:T.
    - apply Z.leb_le in T. exists (2 * Q0), (b + 52 - a).
      split; [reflexivity|]. split; [unfold Q0; nia|].
      split; [change (2 ^ 53) with (2 * 2 ^ 52) in T; lia|].
      split; intros Hs.
      + unfold P, Q0. replace (b + 53) with (1 + a + (b + 52 - a)) by lia.
        rewrite !Z.pow_add_r by lia. ring.
      + unfold P, Q0. replace a with (1 + (b + 52) + (- (b + 52 - a)) - 1) at 2 by lia.
        replace (1 + (b + 52) + - (b + 52 - a) - 1) with ((b + 52) + - (b + 52 - a)) by lia.
        replace (b + 53) with (1 + (b + 52)) by lia.
        rewrite !Z.pow_add_r by lia. ring.
    - apply Z.leb_gt in T. exists Q0, (b + 53 - a).
      split; [reflexivity|]. split; [unfold Q0; nia|].
      split.
      { rewrite HP. unfold Q0. change (2 ^ 53) with (2 * 2 ^ 52). nia. }
      split; intros Hs.
      + unfold P, Q0. replace (b + 53) with (a + (b + 53 - a)) at 1 by lia.
        rewrite !Z.pow_add_r by lia. ring.
      + unfold P, Q0. replace a with ((b + 53) + (- (b + 53 - a))) at 2 by lia.
        rewrite !Z.pow_add_r by lia. ring. }
  destruct Hcase as (Qd & s & -> & HQd & Hnorm & Hs1 & Hs2).
  assert (HPpos : 0 <= P) by (rewrite HP; nia).
  pose proof (round_half_even_error P Qd HQd) as Herr.
  pose proof (round_half_even_nonneg P Qd HQd HPpos) as Hm.
  set (m := round_half_even P Qd) in *.
  assert (Hcore : Z.abs (m * Qd - P) * 2 ^ 53 <= P).
  { change (2 ^ 53) with (2 * 2 ^ 52). lia. }
  destruct (0 <=? s) eqn:S.
  - apply Z.leb_le in S. specialize (Hs1 S).
    assert (HS : 0 < 2 ^ s) by (apply Z.pow_pos_nonneg; lia).
    exists m, (Z.to_pos (2 ^ s)). split; [exact Hm|].
    split; [apply Qred_correct|]. rewrite Z2Pos.id by exact HS.
    apply (Z.mul_le_mono_pos_l _ _ Qd HQd).
    replace (Qd * (Z.abs (m * Zpos d - Zpos n * 2 ^ s) * 2 ^ 53))
      with (Z.abs (Qd * (m * Zpos d - Zpos n * 2 ^ s)) * 2 ^ 53)
      by (rewrite Z.abs_mul, (Z.abs_eq Qd) by lia; ring).
    replace (Qd * (m * Zpos d - Zpos n * 2 ^ s)) with (Zpos d * (m * Qd - P)) by lia.
    rewrite Z.abs_mul, (Z.abs_eq (Zpos d)) by lia.
    replace (Qd * (Zpos n * 2 ^ s)) with (Zpos d * P) by lia.
    rewrite <- Z.mul_assoc. apply Z.mul_le_mono_nonneg_l; lia.
  - apply Z.leb_gt in S. specialize (Hs2 S).
    assert (HS : 0 < 2 ^ (- s)) by (apply Z.pow_pos_nonneg; lia).
    exists (m * 2 ^ (- s)), 1%positive. split; [nia|].
    split; [apply Qred_correct|].
    apply (Z.mul_le_mono_pos_l _ _ Qd HQd).
    replace (Qd * (Z.abs (m * 2 ^ (- s) * Zpos d - Zpos n * 1) * 2 ^ 53))
      with (Z.abs (Qd * (m * 2 ^ (- s) * Zpos d - Zpos n * 1)) * 2 ^ 53)
      by (rewrite Z.abs_mul, (Z.abs_eq Qd) by lia; ring).
    replace (Qd * (m * 2 ^ (- s) * Zpos d - Zpos n * 1))
      with ((Zpos d * 2 ^ (- s)) * (m * Qd - P)) by lia.
    rewrite Z.abs_mul, (Z.abs_eq (Zpos d * 2 ^ (- s))) by nia.
    replace (Qd * (Zpos n * 1)) with ((Zpos d * 2 ^ (- s)) * P) by lia.
    rewrite <- Z.mul_assoc. apply Z.mul_le_mono_nonneg_l; [nia | lia].
Qed.

Lemma rnd_pos_bounds (n d : positive) :
  (0 <= rnd_pos n d
   /\ (Zpos n # d) - (Zpos n # d) * u <= rnd_pos n d
   /\ rnd_pos n d <= (Zpos n # d) + (Zpos n # d) * u)%Q.
Proof.
  destruct (rnd_pos_core n d) as (M & D & HM & -> & H).
  change (2 ^ 53) with 9007199254740992 in H.
  assert (Hlo : (Zpos n * 9007199254740992 - Zpos n) * Zpos D
                <= M * Zpos d * 9007199254740992) by lia.
  assert (Hhi : M * Zpos d * 9007199254740992
                <= (Zpos n * 9007199254740992 + Zpos n) * Zpos D) by lia.
  apply (Z.mul_le_mono_nonneg_l _ _ (Zpos d)) in Hlo; [|lia].
  apply (Z.mul_le_mono_nonneg_l _ _ (Zpos d)) in Hhi; [|lia].
  unfold u, Qle, Qminus, Qplus, Qopp, Qmult; cbn [Qnum Qden].
  rewrite !Pos2Z.inj_mul.
  split; [lia|]. split; lia.
Qed.

Lemma rnd_nonneg_bounds (x : Q) :
  (0 <= x -> 0 <= rnd x /\ x - x * u <= rnd x /\ rnd x <= x + x * u)%Q.
Proof.
  destruct x as [[|n|n] d]; intros Hx; unfold rnd; cbn [Qnum Qden].
  - unfold u, Qle, Qminus, Qplus, Qopp, Qmult; cbn [Qnum Qden]. lia.
  - apply rnd_pos_bounds.
  - exfalso. unfold Qle in Hx; cbn [Qnum Qden] in Hx. lia.
Qed.

Lemma share_nonneg c t : (0 <= share c t)%Q.
Proof.
  unfold share, Qdiv. apply Qmult_le_0_compat.
  - change 0%Q with (inject_Z 0). rewrite <- Zle_Qle. lia.
  - apply Qinv_le_0_compat. change 0%Q with (inject_Z 0). rewrite <- Zle_Qle. lia.
Qed.

Lemma share_add a b t : (share (a + b) t == share a t + share b t)%Q.
Proof.
  unfold share. rewrite Nat2Z.inj_add, inject_Z_plus. unfold Qdiv. ring.
Qed.

Lemma share_full t : (0 < t)%nat -> (share t t == 1)%Q.
Proof.
  intros Ht. unfold share, Qdiv. apply Qmult_inv_r.
  intros E. unfold Qeq in E. cbn [Qnum Qden inject_Z] in E. lia.
Qed.

Lemma percentage_bounds (c t : nat) :
  (100 * share c t * (1 - 2 * u) <= percentage c t
   /\ percentage c t <= 100 * share c t * (1 + 3 * u))%Q.
Proof.
  unfold percentage. fold (share c t).
  pose proof (share_nonneg c t) as Hq.
  destruct (rnd_nonneg_bounds (share c t) Hq) as (H0 & H1 & H2).
  set (r1 := rnd (share c t)) in *.
  assert (Hr : (0 <= r1 * 100)%Q) by lra.
  destruct (rnd_nonneg_bounds (r1 * 100) Hr) as (_ & H3 & H4).
  set (r2 := rnd (r1 * 100)) in *.
  unfold u in *. split; lra.
Qed.

Lemma row_sum_bounds (t : nat) (cs : list nat) :
  (100 * share (list_sum cs) t * (1 - 2 * u)
   <= Qsum (map (fun c => percentage c t) cs)
   /\ Qsum (map (fun c => percentage c t) cs)
      <= 100 * share (list_sum cs) t * (1 + 3 * u))%Q.
Proof.
  induction cs as [|c cs [IH1 IH2]]; simpl.
  - assert (E : (share 0 t == 0)%Q) by (unfold share, Qdiv; apply Qmult_0_l).
    rewrite E. unfold u. lra.
  - rewrite share_add. destruct (percentage_bounds c t) as [H1 H2].
    unfold u in *. split; lra.
Qed.

Lemma row_sum_100 (t : nat) (cs : list nat) :
  (0 < t)%nat -> list_sum cs = t ->
  (Qabs (Qsum (map (fun c => percentage c t) cs) - 100) <= 1 # 100)%Q.
Proof.
  intros Ht E. destruct (row_sum_bounds t cs) as [H1 H2].
  rewrite E, share_full in H1, H2 by exact Ht.
  apply Qabs_Qle_condition. unfold u in *. split; lra.
Qed.

(** * The sidebar *)

(** ** Minimum and maximum of a column *)

Lemma fold_min_Z (l : list Z) (x : Z) :
  fold_left Z.min l x <= x /\ forall y, In y l -> fold_left Z.min l x <= y.
Proof.
  revert x. induction l as [|z l IH]; intros x; simpl.
  - split; [lia | tauto].
  - destruct (IH (Z.min x z)) as [H1 H2]. split; [lia|].
    intros y [<-|Hy]; [lia | auto].
Qed.

Lemma fold_max_Z (l : list Z) (x : Z) :
  x <= fold_left Z.max l x /\ forall y, In y l -> y <= fold_left Z.max l x.
Proof.
  revert x. induction l as [|z l IH]; intros x; simpl.
  - split; [lia | tauto].
  - destruct (IH (Z.max x z)) as [H1 H2]. split; [lia|].
    intros y [<-|Hy]; [lia | auto].
Qed.

Lemma fold_min_Q (l : list Q) (x : Q) :
  let m := fold_left (fun m y => if Qle_bool m y then m else y) l x in
  (m <= x /\ forall y, In y l -> m <= y)%Q.
Proof.
  revert x. induction l as [|z l IH]; intros x; simpl.
  - split; [apply Qle_refl | tauto].
  - destruct (IH (if Qle_bool x z then x else z)) as [H1 H2].
    assert (Hx : ((if Qle_bool x z then x else z) <= x
                  /\ (if Qle_bool x z then x else z) <= z)%Q).
    { destruct (Qle_bool x z) eqn:E.
      - apply Qle_bool_iff in E. split; [apply Qle_refl | exact E].
      - split; [|apply Qle_refl]. apply Qlt_le_weak, Qnot_le_lt.
        intros H. apply Qle_bool_iff in H. congruence. }
    split; [eapply Qle_trans; [exact H1 | apply Hx]|].
    intros y [<-|Hy]; [eapply Qle_trans; [exact H1 | apply Hx] | auto].
Qed.

Lemma fold_max_Q (l : list Q) (x : Q) :
  let m := fold_left (fun m y => if Qle_bool y m then m else y) l x in
  (x <= m /\ forall y, In y l -> y <= m)%Q.
Proof.
  revert x. induction l as [|z l IH]; intros x; simpl.
  - split; [apply Qle_refl | tauto].
  - destruct (IH (if Qle_bool z x then x else z)) as [H1 H2].
    assert (Hx : (x <= (if Qle_bool z x then x else z)
                  /\ z <= (if Qle_bool z x then x else z))%Q).
    { destruct (Qle_bool z x) eqn:E.
      - apply Qle_bool_iff in E. split; [apply Qle_refl | exact E].
      - split; [|apply Qle_refl]. apply Qlt_le_weak, Qnot_le_lt.
        intros H. apply Qle_bool_iff in H. congruence. }
    split; [eapply Qle_trans; [apply Hx | exact H1]|].
    intros y [<-|Hy]; [eapply Qle_trans; [apply Hx | exact H1] | auto].
Qed.

Lemma dropna_In (series : list float) (q : Q) :
  In q (dropna series) <-> In (Some q) series.
Proof.
  induction series as [|[x|] s IH]; simpl; [tauto| |].
  - rewrite IH. split; intros [H|H]; auto; left; congruence.
  - rewrite IH. split; [auto | intros [H|H]; [discriminate | exact H]].
Qed.

(** The bounds of the rating slider: both NaN when no rating is present,
    and otherwise two numbers that enclose every rating present. *)
Lemma series_min_max (series : list float) :
  (dropna series = [] /\ series_min series = None /\ series_max series = None)
  \/ (exists lo hi, series_min series = Some lo /\ series_max series = Some hi
        /\ forall q, In (Some q) series -> (lo <= q /\ q <= hi)%Q).
Proof.
  unfold series_min, series_max.
  destruct (dropna series) as [|x l] eqn:E; [left; auto|].
  right. eexists. eexists. split; [reflexivity|]. split; [reflexivity|].
  intros q Hq. apply dropna_In in Hq. rewrite E in Hq.
  destruct (fold_min_Q l x) as [A1 A2]. destruct (fold_max_Q l x) as [B1 B2].
  destruct Hq as [<-|Hq]; split; auto.
Qed.

Lemma filter_subject_all (sf : list string) (data : DataFrame) :
  (forall r, In r data -> In (Subject r) sf) -> filter_subject sf data = data.
Proof.
  intros H. rewrite filter_subject_spec. apply filter_true.
  intros r Hr. apply orb_true_iff. right. apply mem_string_In. auto.
Qed.

Lemma filter_student_full (data : DataFrame) (lo hi : Z) :
  int_min (col Student_ID data) = Some lo ->
  int_max (col Student_ID data) = Some hi ->
  filter_student (lo, hi) data = data.
Proof.
  intros Hlo Hhi. rewrite filter_student_spec. apply filter_true.
  intros r Hr. cbn [fst snd].
  assert (Hin : In (Student_ID r) (col Student_ID data)) by (apply in_map; exact Hr).
  unfold int_min, int_max in *.
  destruct (col Student_ID data) as [|x l]; [discriminate|].
  injection Hlo as <-. injection Hhi as <-.
  destruct (fold_min_Z l x) as [A1 A2]. destruct (fold_max_Z l x) as [B1 B2].
  apply andb_true_iff. rewrite !Z.leb_le.
  destruct Hin as [<-|Hin]; split; auto.
Qed.

(** ** The sidebar with every widget left at its default *)

(** The full range of ratings keeps exactly the rows whose rating is
    present. *)
Lemma filter_rating_full (data : DataFrame) :
  filter_rating (series_min (col Rating data), series_max (col Rating data)) data
  = filter rated data.
Proof.
  rewrite filter_rating_spec. cbn [fst snd].
  destruct (series_min_max (col Rating data))
    as [(E & -> & ->)|(lo & hi & -> & -> & H)].
  - rewrite (filter_false rated).
    + apply filter_false. intros r _. destruct (Rating r); reflexivity.
    + intros r Hr. unfold rated. destruct (Rating r) as [q|] eqn:Eq; [|reflexivity].
      exfalso. assert (Hq : In q (dropna (col Rating data))).
      { apply dropna_In. rewrite <- Eq. apply in_map. exact Hr. }
      rewrite E in Hq. exact Hq.
  - apply filter_ext_in. intros r Hr. unfold rated.
    destruct (Rating r) as [q|] eqn:Eq; [|reflexivity].
    destruct (H q) as [H1 H2]; [rewrite <- Eq; apply in_map; exact Hr|].
    cbn. apply andb_true_iff. split; apply Qle_bool_iff; assumption.
Qed.

(** When the user touches nothing, a run of the sidebar is the three
    widget calls around the frame of the rows with a rating. *)
Lemma sidebar_default_run (w : Widgets) (data : DataFrame) :
  returns_default w ->
  sidebar w data
  = (_ <- multiselect w (sorted (unique String.eqb (col Subject data)))
                        (unique String.eqb (col Subject data)) ;;
     _ <- slider_float w (series_min (col Rating data))
                         (series_max (col Rating data))
                         (series_min (col Rating data),
                          series_max (col Rating data)) ;;
     a <- int_ (int_min (col Student_ID (filter rated data))) ;;
     b <- int_ (int_max (col Student_ID (filter rated data))) ;;
     _ <- slider_int w a b (a, b) ;;
     Ok (filter rated data)).
Proof.
  intros (Hm & Hf & Hi). unfold sidebar.
  destruct (multiselect w _ _) as [sf|e] eqn:E1; [|reflexivity].
  apply Hm in E1. subst sf. cbn [bind].
  rewrite filter_subject_all.
  2:{ intros r Hr. apply (unique_In _ String.eqb_eq). apply in_map. exact Hr. }
  destruct (slider_float w _ _ _) as [rr|e] eqn:E2; [|reflexivity].
  apply Hf in E2. subst rr. cbn [bind].
  rewrite filter_rating_full.
  destruct (int_min (col Student_ID (filter rated data))) as [a|] eqn:Ea;
    [|reflexivity].
  destruct (int_max (col Student_ID (filter rated data))) as [b|] eqn:Eb;
    [|reflexivity].
  cbn [int_ bind].
  destruct (slider_int w a b (a, b)) as [sr|e] eqn:E3; [|reflexivity].
  apply Hi in E3. subst sr. cbn [bind]. f_equal.
  apply filter_student_full; assumption.
Qed.

Lemma untouched_returns_default : returns_default untouched.
Proof.
  unfold returns_default, untouched; cbn [multiselect slider_float slider_int].
  split; [|split].
  - intros options default sel H. congruence.
  - intros lo hi value sel. destruct (check_slider_float lo hi) as [[]|e];
      cbn [bind]; congruence.
  - intros lo hi value sel. destruct (check_slider_int lo hi) as [[]|e];
      cbn [bind]; congruence.
Qed.

(** On a frame of one row the two bounds of the rating slider coincide and
    Streamlit rejects the call. *)
Example sidebar_one_row :
  sidebar untouched [mkRow 1 "Math" (Some 4%Q) (Some "good"%string)]
  = Raise StreamlitAPIException.
Proof. reflexivity. Qed.

(** On a frame without any rating the sidebar raises, whatever the widgets
    do: if they return, no row passes the rating mask and line 74
    raises. *)
Lemma sidebar_raises_without_rating (w : Widgets) (data : DataFrame) :
  (forall r, In r data -> Rating r = None) ->
  exists e, sidebar w data = Raise e.
Proof.
  intros Hall. unfold sidebar.
  destruct (multiselect w _ _) as [sf|e]; [|exists e; reflexivity].
  cbn [bind].
  destruct (slider_float w _ _ _) as [rr|e]; [|exists e; reflexivity].
  cbn [bind]. rewrite filter_rating_spec, filter_false.
  - exists ValueError. reflexivity.
  - intros r Hr. rewrite filter_subject_spec in Hr. apply filter_In in Hr.
    rewrite (Hall r (proj1 Hr)). reflexivity.
Qed.

(** ** Empty frames *)

(** The key metrics and every chart table are defined on the empty frame:
    the counts are zero, the average is NaN and the tables are empty. *)
Lemma render_empty :
  render []
  = {| view := [];
       metrics := {| total_feedbacks := 0; avg_rating := None;
                     unique_subjects := 0; total_students := 0;
                     total_comments := 0 |};
       pie_table := []; subject_avg_table := []; student_avg_table := [];
       subject_rating_counts_table := []; bar_table := [];
       rating_subject_table := []; wordcloud_text := EmptyString |}.
Proof. reflexivity. Qed.

(** When the last filter, on student identifiers, leaves no row, the
    sidebar returns the empty frame. *)
Lemma empty_after_student_filter :
  apply_filters middle_students two_students_sample = []
  /\ sidebar (choosing middle_students) two_students_sample = Ok [].
Proof. split; reflexivity. Qed.

(** Whenever the subject selector and the rating slider return and their
    selections leave no row, the bounds of the student slider cannot be
    computed and the sidebar raises ValueError. *)
Lemma sidebar_raises_on_empty (w : Widgets) (data : DataFrame)
      (sf : list string) (rr : float * float) :
  multiselect w (sorted (unique String.eqb (col Subject data)))
                (unique String.eqb (col Subject data)) = Ok sf ->
  slider_float w (series_min (col Rating (filter_subject sf data)))
                 (series_max (col Rating (filter_subject sf data)))
                 (series_min (col Rating (filter_subject sf data)),
                  series_max (col Rating (filter_subject sf data))) = Ok rr ->
  filter_rating rr (filter_subject sf data) = [] ->
  sidebar w data = Raise ValueError.
Proof.
  intros H1 H2 H3. unfold sidebar. rewrite H1. cbn [bind].
  rewrite H2. cbn [bind]. rewrite H3. reflexivity.
Qed.

(** ** Full-range criteria and the key metrics *)




(** ** Comments *)

(** The comment metric counts the rows whose comment is present. *)
Lemma total_comments_spec (data : DataFrame) :
  total_comments (key_metrics data)
  = len (filter (fun r => match Comment r with Some _ => true | None => false end)
                data).
Proof.
  unfold key_metrics, notna, col; cbn [total_comments].
  rewrite map_map. f_equal.
  apply (bool_index_map
           (fun r => match Comment r with Some _ => true | None => false end)).
Qed.

(** The word cloud keeps the comments that are present and not blank. *)
Lemma comments_kept_spec (data : DataFrame) :
  len (comments_kept data) = len (filter (fun r => has_text (Comment r)) data).
Proof.
  unfold comments_kept, len.
  induction data as [|r data IH]; [reflexivity|]. cbn [flat_map filter].
  destruct (has_text (Comment r)) eqn:E; [|exact IH].
  destruct (Comment r); [|discriminate]. cbn. rewrite IH. reflexivity.
Qed.

(** C3: the code differs from the claim.  On a frame of two rows, one
    with a comment of three spaces and one with the comment "fine", the
    comment metric is 2, where the claim asks for 1; the word cloud of the
    same run does drop the blank comment, because it strips it first. *)
Theorem total_comments_counts_blank_comment :
  (exists out, app untouched blank_comment_sample = Ok out
               /\ view out = blank_comment_sample
               /\ total_comments (metrics out) = 2%nat
               /\ wordcloud_text out = "fine"%string)
  /\ len (filter (fun r => has_text (Comment r)) blank_comment_sample) = 1%nat
  /\ comments_kept blank_comment_sample = ["fine"%string].
Proof.
  split; [eexists; repeat split; reflexivity|]. split; reflexivity.
Qed.

(** ** An empty filtered frame *)

(** C6: the code differs from the claim.  With two rows rated 1.0 and 5.0
    and the rating slider moved to the range from 2.0 to 3.0, the filtered
    frame is empty and the script raises ValueError where it computes the
    bounds of the student slider: no metric and no table is produced. *)
Theorem empty_filtered_frame_raises :
  filter_rating (rating_range middle_ratings)
    (filter_subject (subject_filter middle_ratings) two_ratings_sample) = []
  /\ int_ (int_min (col Student_ID [])) = Raise ValueError
  /\ sidebar (choosing middle_ratings) two_ratings_sample = Raise ValueError
  /\ app (choosing middle_ratings) two_ratings_sample = Raise ValueError.
Proof. repeat split; reflexivity. Qed.

(** * The chart tables *)

(** ** Stable sorting and the head of a sorted table *)

Section StableSort.
Context {A : Type} (leb : A -> A -> bool).

(** A stable sort keeps the elements that tie with each other in the order
    they had. *)
Lemma insert_stable (p : A -> bool) (x : A) (l : list A) :
  (forall y, p x = true -> p y = true -> leb x y = true) ->
  filter p (insert leb x l) = filter p (x :: l).
Proof.
  intros Htie. induction l as [|y l IH]; [reflexivity|].
  cbn [insert]. destruct (leb x y) eqn:E; [reflexivity|].
  cbn [filter] in *. rewrite IH.
  destruct (p x) eqn:Px; [|reflexivity].
  destruct (p y) eqn:Py; [|reflexivity].
  rewrite (Htie y eq_refl Py) in E. discriminate.
Qed.

Lemma sort_stable (p : A -> bool) (l : list A) :
  (forall x y, p x = true -> p y = true -> leb x y = true) ->
  filter p (sort leb l) = filter p l.
Proof.
  intros Htie. induction l as [|x l IH]; [reflexivity|].
  cbn [sort fold_right]. fold (sort leb l).
  rewrite insert_stable by (intros y; apply Htie).
  cbn [filter]. rewrite IH. reflexivity.
Qed.
End StableSort.

Lemma head_In {A} (n : nat) (l : list A) (x : A) : In x (head n l) -> In x l.
Proof.
  unfold head. revert n. induction l as [|y l IH]; intros [|n]; cbn [firstn];
    try contradiction.
  intros [H|H]; [left; exact H | right; eapply IH; exact H].
Qed.

Section Head.
Context {A : Type} (R : A -> A -> Prop).

Lemma head_sorted (n : nat) (l : list A) :
  StronglySorted R l -> StronglySorted R (head n l).
Proof.
  unfold head. intros H. revert n.
  induction H as [|x l Hl IH Hx]; intros [|n]; cbn [firstn]; try constructor.
  - apply IH.
  - rewrite Forall_forall in *. intros y Hy. apply Hx.
    eapply head_In. exact Hy.
Qed.

(** In a sorted table, a row left out by [head] comes after every row
    kept. *)
Lemma head_sorted_rest (n : nat) (l : list A) (x y : A) :
  StronglySorted R l ->
  In x (head n l) -> In y l -> ~ In y (head n l) -> R x y.
Proof.
  unfold head. intros H. revert n.
  induction H as [|z l Hl IH Hz]; intros [|n]; cbn [firstn];
    intros Hx Hy Hny; try contradiction.
  rewrite Forall_forall in Hz.
  destruct Hy as [<-|Hy]; [exfalso; apply Hny; left; reflexivity|].
  destruct Hx as [<-|Hx]; [apply Hz; exact Hy|].
  apply (IH n); auto. intros H'. apply Hny. right. exact H'.
Qed.
End Head.

Lemma head_length {A} (n : nat) (l : list A) :
  len (head n l) = Nat.min n (len l).
Proof. apply length_firstn. Qed.

Lemma head_map {A B} (f : A -> B) (n : nat) (l : list A) :
  head n (map f l) = map f (head n l).
Proof. unfold head. apply firstn_map. Qed.

Lemma head_all {A} (n : nat) (l : list A) : (len l <= n)%nat -> head n l = l.
Proof. apply firstn_all2. Qed.

Lemma StronglySorted_impl {A} (R1 R2 : A -> A -> Prop) (l : list A) :
  (forall x y, R1 x y -> R2 x y) -> StronglySorted R1 l -> StronglySorted R2 l.
Proof.
  intros H. induction 1 as [|x l Hl IH Hx]; constructor; [exact IH|].
  eapply Forall_impl; [|exact Hx]. intros y. apply H.
Qed.

Lemma sorted_NoDup_lt (l : list Z) :
  StronglySorted (before Z.leb) l -> NoDup l -> StronglySorted Z.lt l.
Proof.
  induction 1 as [|x l Hl IH Hx]; intros Hnd; constructor;
    inversion Hnd as [|? ? Hnotin Hnd']; subst.
  - apply IH. exact Hnd'.
  - rewrite Forall_forall in *. intros y Hy.
    specialize (Hx y Hy). unfold before in Hx. apply Z.leb_le in Hx.
    assert (x <> y) by (intros ->; contradiction). lia.
Qed.

(** ** Counts per subject (lines 125 and 184) *)

Lemma value_counts_perm (series : list string) :
  Permutation (value_counts series)
    (map (fun k => (k, count String.eqb k series)) (unique String.eqb series)).
Proof. apply sort_perm. Qed.

Lemma value_counts_sorted (series : list string) :
  StronglySorted count_desc (value_counts series).
Proof.
  unfold value_counts.
  eapply StronglySorted_impl; [|apply sort_sorted].
  - intros x y H. unfold before in H. apply Nat.leb_le in H. exact H.
  - intros x y. rewrite !Nat.leb_le. lia.
  - intros x y z. rewrite !Nat.leb_le. lia.
Qed.

Lemma value_counts_keys (series : list string) :
  Permutation (map fst (value_counts series)) (unique String.eqb series).
Proof.
  rewrite value_counts_perm, map_map. cbn [fst]. rewrite map_id. reflexivity.
Qed.

Lemma value_counts_NoDup (series : list string) :
  NoDup (map fst (value_counts series)).
Proof.
  eapply Permutation_NoDup;
    [symmetry; apply value_counts_keys | apply (unique_NoDup _ String.eqb_eq)].
Qed.

Lemma value_counts_In (series : list string) (s : string) (n : nat) :
  In (s, n) (value_counts series)
  <-> In s series /\ n = count String.eqb s series.
Proof.
  split.
  - intros H. apply (Permutation_in _ (value_counts_perm series)) in H.
    apply in_map_iff in H. destruct H as (k & E & Hk). inversion E; subst.
    split; [apply (unique_In _ String.eqb_eq); exact Hk | reflexivity].
  - intros [H ->].
    apply (Permutation_in _ (Permutation_sym (value_counts_perm series))).
    apply in_map_iff. exists s. split; [reflexivity|].
    apply (unique_In _ String.eqb_eq). exact H.
Qed.

(** C5, as stated, fails.  On a frame with one row for Math followed by
    one row for Art the two counts tie, and the table lists Math before
    Art: the tie is not broken by subject name. *)
Lemma subject_counts_tie_not_by_name :
  subject_counts tie_sample = [("Math"%string, 1%nat); ("Art"%string, 1%nat)]
  /\ ~ StronglySorted count_desc_name_asc (subject_counts tie_sample).
Proof.
  split; [reflexivity|].
  change (subject_counts tie_sample)
    with [("Math"%string, 1%nat); ("Art"%string, 1%nat)].
  intros H. inversion H as [|? ? _ Hall]; subst.
  inversion Hall as [|? ? Hrel _]; subst.
  destruct Hrel as [Hlt|[_ Hleb]]; cbn in *; [lia | discriminate].
Qed.

(** C5, amended.  The table of subject counts has one row per subject of
    the frame, holding the number of its rows; the rows are ordered by
    count, largest first; rows of equal count are in the order in which
    their subjects first appear in the frame. *)
Theorem subject_counts_order (data : DataFrame) :
  Permutation (subject_counts data) (first_seen_counts data)
  /\ NoDup (map fst (subject_counts data))
  /\ (forall s n, In (s, n) (subject_counts data)
                  <-> In s (col Subject data)
                      /\ n = count String.eqb s (col Subject data))
  /\ StronglySorted count_desc (subject_counts data)
  /\ (forall n, filter (fun p => (snd p =? n)%nat) (subject_counts data)
                = filter (fun p => (snd p =? n)%nat) (first_seen_counts data)).
Proof.
  unfold subject_counts, first_seen_counts.
  split; [apply value_counts_perm|].
  split; [apply value_counts_NoDup|].
  split; [intros s n; apply value_counts_In|].
  split; [apply value_counts_sorted|].
  intros n. unfold value_counts. apply sort_stable.
  intros x y Hx Hy. apply Nat.eqb_eq in Hx, Hy. apply Nat.leb_le. lia.
Qed.

(** C10.  The bar table of feedback counts has at most 15 rows: the first
    15 rows of the table of subject counts, which is ordered by count,
    largest first.  Each row holds a subject of the frame with the number
    of its rows, no subject comes twice, and a subject of the frame that
    is left out has a count no larger than any count in the table.  With
    15 subjects or fewer nothing is left out. *)
Theorem subject_counts_bar_top_15 (data : DataFrame) :
  (len (subject_counts_bar data) <= 15)%nat
  /\ len (subject_counts_bar data)
     = Nat.min 15 (nunique String.eqb (col Subject data))
  /\ StronglySorted count_desc (subject_counts_bar data)
  /\ NoDup (map fst (subject_counts_bar data))
  /\ (forall s n, In (s, n) (subject_counts_bar data) ->
                  In s (col Subject data)
                  /\ n = count String.eqb s (col Subject data))
  /\ (forall s, In s (col Subject data) ->
                ~ In s (map fst (subject_counts_bar data)) ->
                forall row, In row (subject_counts_bar data) ->
                  (count String.eqb s (col Subject data) <= snd row)%nat)
  /\ ((nunique String.eqb (col Subject data) <= 15)%nat ->
      subject_counts_bar data = subject_counts data).
Proof.
  unfold subject_counts_bar, subject_counts.
  set (series := col Subject data).
  assert (Hlen : len (value_counts series) = nunique String.eqb series).
  { unfold nunique, len. rewrite (Permutation_length (value_counts_perm series)).
    apply length_map. }
  pose proof (value_counts_NoDup series) as Hnd.
  split; [rewrite head_length; lia|].
  split; [rewrite head_length, Hlen; reflexivity|].
  split; [apply head_sorted, value_counts_sorted|].
  split.
  { rewrite <- head_map. unfold head.
    rewrite <- (firstn_skipn 15 (map fst (value_counts series))) in Hnd.
    apply NoDup_app_remove_r in Hnd. exact Hnd. }
  split; [intros s n H; apply value_counts_In; eapply head_In; exact H|].
  split.
  - intros s Hs Hout row Hrow.
    apply (head_sorted_rest count_desc 15 (value_counts series) row
             (s, count String.eqb s series)).
    + apply value_counts_sorted.
    + exact Hrow.
    + apply value_counts_In. split; [exact Hs | reflexivity].
    + intros H. apply Hout. apply (in_map fst) in H. exact H.
  - intros H. apply head_all. rewrite Hlen. exact H.
Qed.

(** ** Average rating per student (line 156) *)

Lemma student_keys_sorted (data : DataFrame) :
  StronglySorted Z.lt (groupby_keys Z.eqb Z.leb (col Student_ID data)).
Proof.
  unfold groupby_keys. apply sorted_NoDup_lt.
  - apply sort_sorted.
    + intros x y. rewrite !Z.leb_le. lia.
    + intros x y z. rewrite !Z.leb_le. lia.
  - apply sort_NoDup, (unique_NoDup _ Z.eqb_eq).
Qed.

Lemma student_keys_In (data : DataFrame) (k : Z) :
  In k (groupby_keys Z.eqb Z.leb (col Student_ID data))
  <-> In k (col Student_ID data).
Proof.
  unfold groupby_keys. rewrite sort_In. apply (unique_In _ Z.eqb_eq).
Qed.

Lemma student_avg_keys (data : DataFrame) :
  map fst (student_avg data)
  = head 20 (groupby_keys Z.eqb Z.leb (col Student_ID data)).
Proof.
  unfold student_avg. rewrite <- head_map, map_map. cbn [fst].
  rewrite map_id. reflexivity.
Qed.

(** C4, as stated, fails.  On a frame whose first row is of student 2 and
    whose second row is of student 1, the per-student table lists student
    1 first: the groups are in ascending order of identifier, not in the
    order in which the identifiers first appear. *)
Lemma student_avg_not_first_seen :
  unique Z.eqb (col Student_ID out_of_order_sample) = [2; 1]
  /\ student_avg out_of_order_sample = [(1, Some 3%Q); (2, Some 4%Q)]
  /\ student_avg_first_seen out_of_order_sample = [(2, Some 4%Q); (1, Some 3%Q)]
  /\ student_avg out_of_order_sample
     <> student_avg_first_seen out_of_order_sample.
Proof. repeat split; try reflexivity. discriminate. Qed.

(** C4, amended.  The per-student table has one row per student, holding
    the mean of the ratings of the rows of that student; the rows are in
    ascending order of student identifier, and the table holds the first 20
    of them: the 20 smallest identifiers of the frame, or all of them when
    there are fewer. *)
Theorem student_avg_first_20_ascending (data : DataFrame) :
  StronglySorted Z.lt (map fst (student_avg data))
  /\ len (student_avg data) = Nat.min 20 (nunique Z.eqb (col Student_ID data))
  /\ (forall k m, In (k, m) (student_avg data) ->
                  In k (col Student_ID data)
                  /\ m = mean (col Rating (group_of_student k data)))
  /\ (forall k, In k (col Student_ID data) ->
                ~ In k (map fst (student_avg data)) ->
                forall k', In k' (map fst (student_avg data)) -> k' < k).
Proof.
  split; [rewrite student_avg_keys; apply head_sorted, student_keys_sorted|].
  split.
  { unfold student_avg, groupby_keys, nunique, len.
    rewrite head_length. unfold len. rewrite length_map, sort_length. reflexivity. }
  split.
  - intros k m H. unfold student_avg in H. apply head_In in H.
    apply in_map_iff in H. destruct H as (k0 & E & Hk). inversion E; subst.
    split; [apply student_keys_In; exact Hk | reflexivity].
  - intros k Hk Hout k' Hk'. rewrite student_avg_keys in Hout, Hk'.
    apply (head_sorted_rest Z.lt 20
             (groupby_keys Z.eqb Z.leb (col Student_ID data)) k' k).
    + apply student_keys_sorted.
    + exact Hk'.
    + apply student_keys_In. exact Hk.
    + exact Hout.
Qed.

(** ** Shares of the ratings per subject (line 203) *)

Section Counting.
Context {A B : Type} (eqb : A -> A -> bool) (key : B -> A).
Hypothesis eqb_refl : forall x, eqb x x = true.
Hypothesis eqb_trans :
  forall x y z, eqb x y = true -> eqb y z = true -> eqb x z = true.
Hypothesis eqb_sym : forall x y, eqb x y = eqb y x.

(** Among the distinct values of a list exactly one equals a value that
    occurs in the list, and none equals a value that does not. *)
Lemma unique_hits (l : list A) (a : A) :
  List.length (filter (fun k => eqb k a) (unique eqb l))
  = if existsb (fun k => eqb k a) l then 1%nat else 0%nat.
Proof.
  induction l as [|y l IH]; [reflexivity|].
  cbn [unique filter existsb]. destruct (eqb y a) eqn:E; cbn [orb].
  - rewrite filter_filter, (filter_false _ (unique eqb l)); [reflexivity|].
    intros k _. destruct (eqb k a) eqn:Ek; [|apply andb_false_r].
    rewrite (eqb_sym k a) in Ek.
    rewrite (eqb_trans y a k E Ek). reflexivity.
  - rewrite <- IH, filter_filter. f_equal. apply filter_ext. intros k.
    destruct (eqb k a) eqn:Ek; [|apply andb_false_r].
    destruct (eqb y k) eqn:Eyk; [|reflexivity].
    rewrite (eqb_trans y k a Eyk Ek) in E. discriminate.
Qed.

Lemma list_sum_indicator {C} (b : C -> bool) (l : list C) :
  list_sum (map (fun k => if b k then 1%nat else 0%nat) l)
  = List.length (filter b l).
Proof.
  induction l as [|k l IH]; [reflexivity|]. simpl.
  destruct (b k); simpl; rewrite <- IH; reflexivity.
Qed.

Lemma list_sum_map_add {C} (g h : C -> nat) (l : list C) :
  list_sum (map (fun k => (g k + h k)%nat) l)
  = (list_sum (map g l) + list_sum (map h l))%nat.
Proof.
  induction l as [|k l IH]; [reflexivity|]. simpl in *. lia.
Qed.

(** Counting the pairs of a key and an item that match, by keys or by
    items. *)
Lemma double_count (f : A -> B -> bool) (ks : list A) (items : list B) :
  list_sum (map (fun k => List.length (filter (f k) items)) ks)
  = list_sum (map (fun p => List.length (filter (fun k => f k p) ks)) items).
Proof.
  induction items as [|p items IH].
  - cbn [filter List.length map list_sum].
    induction ks as [|k ks IHk]; [reflexivity | exact IHk].
  - rewrite (map_ext _ (fun k => ((if f k p then 1 else 0)
                                   + List.length (filter (f k) items))%nat)).
    2:{ intros k. cbn [filter]. destruct (f k p); reflexivity. }
    rewrite list_sum_map_add, list_sum_indicator, IH. reflexivity.
Qed.

(** The groups of the distinct keys partition the items whose key occurs
    in the list. *)
Lemma groups_partition (l : list A) (items : list B) :
  (forall p, In p items -> In (key p) l) ->
  list_sum (map (fun k => List.length (filter (fun p => eqb k (key p)) items))
                (unique eqb l))
  = List.length items.
Proof.
  intros Hkeys.
  rewrite (double_count (fun k p => eqb k (key p))).
  rewrite (map_ext_in _ (fun _ => 1%nat)).
  - clear Hkeys. induction items as [|p items IH]; [reflexivity|].
    simpl in *. rewrite IH. reflexivity.
  - intros p Hp. rewrite unique_hits.
    assert (E : existsb (fun k => eqb k (key p)) l = true).
    { apply existsb_exists. exists (key p). split; [apply Hkeys; exact Hp|].
      apply eqb_refl. }
    rewrite E. reflexivity.
Qed.
End Counting.

Lemma observed_In (data : DataFrame) (s : string) (q : Q) :
  In (s, q) (observed data)
  <-> exists r, In r data /\ Subject r = s /\ Rating r = Some q.
Proof.
  induction data as [|r data IH]; cbn [observed In].
  - split; [tauto | intros (r & [] & _)].
  - destruct (Rating r) as [q0|] eqn:E; cbn [In]; rewrite IH; split.
    + intros [H|(r' & H1 & H2)].
      * inversion H; subst. exists r. auto.
      * exists r'. tauto.
    + intros (r' & [<-|H1] & H2 & H3).
      * left. congruence.
      * right. exists r'. auto.
    + intros (r' & H1 & H2). exists r'. tauto.
    + intros (r' & [<-|H1] & H2 & H3); [congruence|]. exists r'. auto.
Qed.

(** The subjects that label a row of the table are the subjects of the
    rows of the frame whose rating is present. *)
Lemma rating_subject_index (data : DataFrame) (s : string) :
  In s (map fst (rating_subject data))
  <-> exists r, In r data /\ Subject r = s /\ Rating r <> None.
Proof.
  unfold rating_subject, groupby_keys. rewrite map_map. cbn [fst].
  rewrite map_id, sort_In, (unique_In _ String.eqb_eq), in_map_iff. split.
  - intros ([s' q] & E & H). cbn in E. subst s'.
    apply observed_In in H. destruct H as (r & H1 & H2 & H3).
    exists r. split; [exact H1|]. split; [exact H2 | congruence].
  - intros (r & H1 & H2 & H3). destruct (Rating r) as [q|] eqn:E; [|congruence].
    exists (s, q). split; [reflexivity|]. apply observed_In. exists r. auto.
Qed.

Lemma rating_subject_NoDup (data : DataFrame) :
  NoDup (map fst (rating_subject data)).
Proof.
  unfold rating_subject, groupby_keys. rewrite map_map. cbn [fst]. rewrite map_id.
  apply sort_NoDup, (unique_NoDup _ String.eqb_eq).
Qed.

(** The counts in one row of the table add up to the number of rated rows
    of its subject. *)
Lemma cell_counts_total (s : string) (obs : list (string * Q)) :
  list_sum (map (fun v => cell_count s v obs)
                (groupby_keys Qeq_bool Qle_bool (map snd obs)))
  = row_total s obs.
Proof.
  unfold groupby_keys, row_total, cell_count, len.
  rewrite (Permutation_list_sum
             (Permutation_map _ (sort_perm Qle_bool (unique Qeq_bool (map snd obs))))).
  rewrite <- (groups_partition Qeq_bool snd Qeq_bool_refl Qeq_bool_trans
                Qeq_bool_comm (map snd obs)
                (filter (fun p => String.eqb s (fst p)) obs)).
  - f_equal. apply map_ext. intros v. rewrite filter_filter. reflexivity.
  - intros p Hp. apply filter_In in Hp. apply in_map. apply Hp.
Qed.

(** Every row of the table sums to 100 within 0.01. *)
Lemma rating_subject_row_sum (data : DataFrame) (s : string)
      (cells : list (Q * Q)) :
  In (s, cells) (rating_subject data) ->
  (Qabs (Qsum (map snd cells) - 100) <= 1 # 100)%Q.
Proof.
  unfold rating_subject. set (obs := observed data).
  intros H. apply in_map_iff in H. destruct H as (s' & E & Hs).
  inversion E; subst s' cells. clear E.
  rewrite map_map. cbn [snd].
  rewrite <- (map_map (fun v => cell_count s v obs)
                      (fun c => percentage c (row_total s obs))).
  apply row_sum_100; [|apply cell_counts_total].
  unfold groupby_keys in Hs.
  rewrite sort_In, (unique_In _ String.eqb_eq), in_map_iff in Hs.
  destruct Hs as (p & Ep & Hp). unfold row_total, len.
  assert (Hin : In p (filter (fun p => String.eqb s (fst p)) obs)).
  { apply filter_In. split; [exact Hp|]. rewrite Ep. apply String.eqb_refl. }
  destruct (filter (fun p => String.eqb s (fst p)) obs); [contradiction|].
  cbn. lia.
Qed.

(** The rows that pass the rating filter have a rating. *)
Lemma apply_filters_rated (c : Criteria) (data : DataFrame) (r : Row) :
  In r (apply_filters c data) -> In r data /\ Rating r <> None.
Proof.
  rewrite apply_filters_spec, filter_In. intros [H1 H2]. split; [exact H1|].
  apply andb_true_iff in H2. destruct H2 as [H2 _].
  apply andb_true_iff in H2. destruct H2 as [_ H2].
  unfold rating_ok in H2. destruct (Rating r); [discriminate|].
  discriminate H2.
Qed.

(** C8.  In the table of rating shares per subject computed from the
    filtered frame (the frame every chart is computed from, see
    [sidebar_is_apply_filters]), every subject with at least one row in the frame has
    one row of the table, the shares of every row of the table add up to
    100 within 0.01, and a subject without a row in the frame has no row
    in the table. *)
Theorem rating_subject_rows_sum_to_100 (c : Criteria) (original : DataFrame) :
  let data := apply_filters c original in
  (forall s, In s (col Subject data) ->
             exists cells, In (s, cells) (rating_subject data))
  /\ (forall s cells, In (s, cells) (rating_subject data) ->
        (Qabs (Qsum (map snd cells) - 100) <= 1 # 100)%Q)
  /\ (forall s, ~ In s (col Subject data) ->
                ~ In s (map fst (rating_subject data)))
  /\ NoDup (map fst (rating_subject data)).
Proof.
  cbv zeta. split; [|split; [|split]].
  - intros s Hs. unfold col in Hs. apply in_map_iff in Hs.
    destruct Hs as (r & E & Hr).
    assert (H : In s (map fst (rating_subject (apply_filters c original)))).
    { apply rating_subject_index. exists r. split; [exact Hr|].
      split; [exact E|]. apply (apply_filters_rated c original r Hr). }
    apply in_map_iff in H. destruct H as ([s' cells] & E' & H).
    cbn in E'. subst s'. exists cells. exact H.
  - intros s cells. apply rating_subject_row_sum.
  - intros s Hs H. apply Hs. apply rating_subject_index in H.
    destruct H as (r & H1 & H2 & _). subst s. unfold col. apply in_map. exact H1.
  - apply rating_subject_NoDup.
Qed.

(** * The scenarios of the specification *)

(** Selecting Math on the three sample rows leaves the two Math rows, with
    average rating 4.5, one subject and one comment. *)
Example scenario_math :
  key_metrics (filter_subject ["Math"%string] sample)
  = {| total_feedbacks := 2; avg_rating := Some (9 # 2); unique_subjects := 1;
       total_students := 2; total_comments := 1 |}.
Proof. reflexivity. Qed.

(** The average per subject on the sample rows: Art first, then Math. *)
Example scenario_subject_avg :
  subject_avg sample
  = [ ("Art"%string, (Some 3%Q, 1%nat)); ("Math"%string, (Some (9 # 2), 2%nat)) ].
Proof. reflexivity. Qed.

(** A rating range that is a single value keeps the rows with that
    rating. *)
Example scenario_single_rating :
  filter_rating (Some 4%Q, Some 4%Q) sample
  = [ mkRow 1 "Math" (Some 4%Q) (Some "good"%string) ].
Proof. reflexivity. Qed.

(** The shares of three equal counts are rounded, and still add up to 100
    within the tolerance. *)
Example scenario_thirds :
  percentage 1 3 = 2345624805922133 # 70368744177664
  /\ (Qabs (Qsum [percentage 1 3; percentage 1 3; percentage 1 3] - 100)
      <= 1 # 100)%Q
  /\ ~ (Qsum [percentage 1 3; percentage 1 3; percentage 1 3] == 100)%Q.
Proof.
  split; [reflexivity|]. split; [vm_compute; discriminate|].
  vm_compute. discriminate.
Qed.

(** * Further properties of the script *)

(** ** The filter lines (lines 56-78) *)

Lemma float_range_spec (v lo hi : float) :
  float_ge v lo && float_le v hi = true
  <-> exists q a b, v = Some q /\ lo = Some a /\ hi = Some b
                    /\ (a <= q /\ q <= b)%Q.
Proof.
  unfold float_ge, float_le. split.
  - intros H. apply andb_true_iff in H. destruct H as [H1 H2].
    destruct v as [q|]; [|discriminate]. destruct lo as [a|]; [|discriminate].
    destruct hi as [b|]; [|discriminate].
    apply Qle_bool_iff in H1, H2. exists q, a, b. auto.
  - intros (q & a & b & -> & -> & -> & H1 & H2).
    apply andb_true_iff. split; apply Qle_bool_iff; assumption.
Qed.

(** X1.  A row is in the filtered frame exactly when it is a row of the
    frame, its subject is selected (or nothing is selected), its rating is
    present and lies between the two ends of the rating range, ends
    included, and its student identifier lies between the two ends of the
    student range, ends included. *)
Theorem apply_filters_In (c : Criteria) (data : DataFrame) (r : Row) :
  In r (apply_filters c data)
  <-> In r data
      /\ (subject_filter c = [] \/ In (Subject r) (subject_filter c))
      /\ (exists q lo hi, Rating r = Some q
                          /\ rating_range c = (Some lo, Some hi)
                          /\ (lo <= q /\ q <= hi)%Q)
      /\ fst (student_id_range c) <= Student_ID r <= snd (student_id_range c).
Proof.
  rewrite apply_filters_spec, filter_In.
  unfold subject_ok, rating_ok, student_ok.
  rewrite !andb_true_iff, orb_true_iff, mem_string_In, !Z.leb_le.
  rewrite <- andb_true_iff, float_range_spec.
  assert (Hsf : negb (truthy (subject_filter c)) = true <-> subject_filter c = []).
  { destruct (subject_filter c); cbn; split; congruence. }
  rewrite Hsf. destruct (rating_range c) as [lo hi]. cbn [fst snd].
  split.
  - intros (H1 & (H2 & q & a & b & E1 & -> & -> & H3) & H4).
    repeat split; try tauto. exists q, a, b. auto.
  - intros (H1 & H2 & (q & a & b & E1 & E2 & H3) & H4).
    injection E2 as -> ->.
    repeat split; try tauto. exists q, a, b. auto.
Qed.

(** X2.  Filtering a filtered frame again with the same widget values
    changes nothing. *)
Theorem apply_filters_idempotent (c : Criteria) (data : DataFrame) :
  apply_filters c (apply_filters c data) = apply_filters c data.
Proof.
  rewrite !apply_filters_spec, filter_filter. apply filter_ext. intros r.
  destruct (subject_ok c r && rating_ok c r && student_ok c r); reflexivity.
Qed.

(** X3.  A rating range with a NaN end, or with its ends in the wrong
    order, keeps no row; so does a student range with its ends in the wrong
    order. *)
Theorem degenerate_ranges_keep_nothing (data : DataFrame) :
  (forall x, filter_rating (None, x) data = []
             /\ filter_rating (x, None) data = [])
  /\ (forall lo hi, (hi < lo)%Q -> filter_rating (Some lo, Some hi) data = [])
  /\ (forall lo hi, hi < lo -> filter_student (lo, hi) data = []).
Proof.
  split; [|split].
  - intros x. split; rewrite filter_rating_spec; apply filter_false;
      intros r _; cbn [fst snd]; unfold float_ge, float_le.
    + destruct (Rating r); reflexivity.
    + destruct (Rating r), x; try reflexivity; apply andb_false_r.
  - intros lo hi H. rewrite filter_rating_spec. apply filter_false.
    intros r _. cbn [fst snd]. destruct (float_ge _ _ && float_le _ _) eqn:E;
      [|reflexivity].
    apply float_range_spec in E.
    destruct E as (q & a & b & _ & Ea & Eb & H1 & H2).
    injection Ea as <-. injection Eb as <-.
    exfalso. apply (Qlt_not_le _ _ H). eapply Qle_trans; eassumption.
  - intros lo hi H. rewrite filter_student_spec. apply filter_false.
    intros r _. cbn [fst snd].
    destruct ((lo <=? Student_ID r) && (Student_ID r <=? hi)) eqn:E;
      [|reflexivity].
    apply andb_true_iff in E. rewrite !Z.leb_le in E. lia.
Qed.



(** ** The widgets' arguments (lines 51-55, 61-66, 72-77) *)

Lemma string_compare_trans (s1 s2 s3 : string) :
  String.compare s1 s2 <> Gt -> String.compare s2 s3 <> Gt ->
  String.compare s1 s3 <> Gt.
Proof.
  revert s2 s3. induction s1 as [|a s1 IH]; intros [|b s2] [|c s3];
    cbn [String.compare]; try congruence.
  unfold Ascii.compare.
  destruct (N.compare_spec (N_of_ascii a) (N_of_ascii b)) as [Hab|Hab|Hab];
    destruct (N.compare_spec (N_of_ascii b) (N_of_ascii c)) as [Hbc|Hbc|Hbc];
    destruct (N.compare_spec (N_of_ascii a) (N_of_ascii c)) as [Hac|Hac|Hac];
    try congruence; try lia.
  apply IH.
Qed.

Lemma string_leb_trans (s1 s2 s3 : string) :
  String.leb s1 s2 = true -> String.leb s2 s3 = true -> String.leb s1 s3 = true.
Proof.
  unfold String.leb. intros H1 H2.
  pose proof (string_compare_trans s1 s2 s3) as H.
  destruct (String.compare s1 s2); try discriminate;
    destruct (String.compare s2 s3); try discriminate;
    destruct (String.compare s1 s3); try reflexivity;
    exfalso; apply H; congruence.
Qed.

Lemma string_leb_ltb (s1 s2 : string) :
  String.leb s1 s2 = true -> s1 <> s2 -> String.ltb s1 s2 = true.
Proof.
  unfold String.leb, String.ltb. intros H Hne.
  destruct (String.compare s1 s2) eqn:E; try discriminate; [|reflexivity].
  apply String.compare_eq_iff in E. contradiction.
Qed.

Lemma sorted_NoDup_strict {A} (leb : A -> A -> bool) (R : A -> A -> Prop)
      (l : list A) :
  (forall x y, leb x y = true -> x <> y -> R x y) ->
  StronglySorted (before leb) l -> NoDup l -> StronglySorted R l.
Proof.
  intros Hstrict. induction 1 as [|x l Hl IH Hx]; intros Hnd; constructor;
    inversion Hnd as [|? ? Hnotin Hnd']; subst.
  - apply IH. exact Hnd'.
  - rewrite Forall_forall in *. intros y Hy. apply Hstrict.
    + apply Hx. exact Hy.
    + intros ->. contradiction.
Qed.

(** X5.  The options offered by the subject selector are the subjects of
    the frame, each once, in strictly ascending order; the default
    selection holds the same subjects, each once, in order of first
    appearance. *)
Theorem subject_options (data : DataFrame) :
  let default := unique String.eqb (col Subject data) in
  let options := sorted default in
  StronglySorted (fun a b => String.ltb a b = true) options
  /\ NoDup options
  /\ (forall s, In s options <-> In s (col Subject data))
  /\ NoDup default
  /\ (forall s, In s default <-> In s (col Subject data))
  /\ subseq default (col Subject data)
  /\ Permutation options default.
Proof.
  cbv zeta. unfold sorted.
  pose proof (unique_NoDup _ String.eqb_eq (col Subject data)) as Hnd.
  split.
  { apply (sorted_NoDup_strict String.leb).
    - apply string_leb_ltb.
    - apply sort_sorted; [apply String.leb_total | apply string_leb_trans].
    - apply sort_NoDup, Hnd. }
  split; [apply sort_NoDup, Hnd|].
  split; [intros s; rewrite sort_In; apply (unique_In _ String.eqb_eq)|].
  split; [exact Hnd|].
  split; [intros s; apply (unique_In _ String.eqb_eq)|].
  split; [apply unique_subseq | apply sort_perm].
Qed.

Lemma fold_min_Z_attained (l : list Z) (x : Z) : In (fold_left Z.min l x) (x :: l).
Proof.
  revert x. induction l as [|z l IH]; intros x; cbn [fold_left]; [left; reflexivity|].
  destruct (IH (Z.min x z)) as [H|H]; [|right; right; exact H].
  rewrite <- H. destruct (Z.min_spec x z) as [[_ ->]|[_ ->]];
    [left | right; left]; reflexivity.
Qed.

Lemma fold_max_Z_attained (l : list Z) (x : Z) : In (fold_left Z.max l x) (x :: l).
Proof.
  revert x. induction l as [|z l IH]; intros x; cbn [fold_left]; [left; reflexivity|].
  destruct (IH (Z.max x z)) as [H|H]; [|right; right; exact H].
  rewrite <- H. destruct (Z.max_spec x z) as [[_ ->]|[_ ->]];
    [right; left | left]; reflexivity.
Qed.

Lemma fold_pick_attained (pick : Q -> Q -> bool) (l : list Q) (x : Q) :
  In (fold_left (fun m y => if pick m y then m else y) l x) (x :: l).
Proof.
  revert x. induction l as [|z l IH]; intros x; cbn [fold_left]; [left; reflexivity|].
  destruct (IH (if pick x z then x else z)) as [H|H]; [|right; right; exact H].
  rewrite <- H. destruct (pick x z); [left | right; left]; reflexivity.
Qed.

(** X6.  On a frame with at least one rating, the two bounds passed to the
    rating slider are ratings of the frame, the lower bound is no larger
    than the upper bound, and every rating of the frame lies between
    them. *)
Theorem rating_slider_bounds (data : DataFrame) :
  (exists r, In r data /\ Rating r <> None) ->
  exists lo hi,
    series_min (col Rating data) = Some lo
    /\ series_max (col Rating data) = Some hi
    /\ In (Some lo) (col Rating data)
    /\ In (Some hi) (col Rating data)
    /\ (lo <= hi)%Q
    /\ forall r q, In r data -> Rating r = Some q -> (lo <= q /\ q <= hi)%Q.
Proof.
  intros (r0 & Hr0 & Hq0).
  destruct (Rating r0) as [q0|] eqn:E0; [|congruence].
  assert (Hin0 : In q0 (dropna (col Rating data))).
  { apply dropna_In. rewrite <- E0. apply in_map. exact Hr0. }
  unfold series_min, series_max.
  destruct (dropna (col Rating data)) as [|x l] eqn:E; [contradiction|].
  eexists. eexists. split; [reflexivity|]. split; [reflexivity|].
  assert (Hbound : forall q, In q (x :: l) ->
            (fold_left (fun m y => if Qle_bool m y then m else y) l x <= q
             /\ q <= fold_left (fun m y => if Qle_bool y m then m else y) l x)%Q).
  { intros q Hq. destruct (fold_min_Q l x) as [A1 A2].
    destruct (fold_max_Q l x) as [B1 B2].
    destruct Hq as [<-|Hq]; split; auto. }
  split; [apply dropna_In; rewrite E; apply fold_pick_attained|].
  split; [apply dropna_In; rewrite E;
          apply (fold_pick_attained (fun m y => Qle_bool y m))|].
  split.
  - eapply Qle_trans; apply (Hbound x); left; reflexivity.
  - intros r q Hr Hq. apply Hbound. rewrite <- E. apply dropna_In.
    rewrite <- Hq. apply in_map. exact Hr.
Qed.

Lemma rating_slider_bounds_witness :
  (exists r, In r sample /\ Rating r <> None)
  /\ exists lo hi,
       series_min (col Rating sample) = Some lo
       /\ series_max (col Rating sample) = Some hi
       /\ In (Some lo) (col Rating sample)
       /\ In (Some hi) (col Rating sample)
       /\ (lo <= hi)%Q
       /\ forall r q, In r sample -> Rating r = Some q -> (lo <= q /\ q <= hi)%Q.
Proof.
  assert (H : exists r, In r sample /\ Rating r <> None).
  { exists (mkRow 1 "Math" (Some 4%Q) (Some "good"%string)).
    split; [left; reflexivity | discriminate]. }
  split; [exact H | exact (rating_slider_bounds sample H)].
Defined.

(** X7.  On a frame that is not empty, the two bounds passed to the
    student slider are identifiers of the frame, the lower bound is no
    larger than the upper bound, every identifier of the frame lies between
    them, and no ValueError is raised. *)
Theorem student_slider_bounds (data : DataFrame) :
  data <> [] ->
  exists lo hi,
    int_ (int_min (col Student_ID data)) = Ok lo
    /\ int_ (int_max (col Student_ID data)) = Ok hi
    /\ In lo (col Student_ID data)
    /\ In hi (col Student_ID data)
    /\ lo <= hi
    /\ forall r, In r data -> lo <= Student_ID r <= hi.
Proof.
  intros Hne. destruct data as [|r0 data]; [congruence|].
  cbn [col map int_min int_max int_].
  set (x := Student_ID r0). set (l := map Student_ID data).
  destruct (fold_min_Z l x) as [A1 A2]. destruct (fold_max_Z l x) as [B1 B2].
  eexists. eexists. split; [reflexivity|]. split; [reflexivity|].
  split; [apply fold_min_Z_attained|]. split; [apply fold_max_Z_attained|].
  split; [lia|].
  intros r [<-|Hr]; [fold x; lia|].
  assert (Hin : In (Student_ID r) l) by (apply in_map; exact Hr).
  split; auto.
Qed.

Lemma student_slider_bounds_witness :
  sample <> []
  /\ exists lo hi,
       int_ (int_min (col Student_ID sample)) = Ok lo
       /\ int_ (int_max (col Student_ID sample)) = Ok hi
       /\ In lo (col Student_ID sample)
       /\ In hi (col Student_ID sample)
       /\ lo <= hi
       /\ forall r, In r sample -> lo <= Student_ID r <= hi.
Proof.
  assert (H : sample <> []) by discriminate.
  split; [exact H | exact (student_slider_bounds sample H)].
Defined.

(** ** Runs of the script *)

(** X8.  In a session in which the user leaves every widget at its
    default, whenever the sidebar returns, the frame it returns is exactly
    the rows of the dataset that have a rating, in their order; there is
    at least one such row. *)
Theorem untouched_view (w : Widgets) (data out : DataFrame) :
  returns_default w ->
  sidebar w data = Ok out ->
  out = filter rated data
  /\ out <> []
  /\ key_metrics out = key_metrics (filter rated data).
Proof.
  intros Hw H. rewrite (sidebar_default_run w data Hw) in H.
  destruct (multiselect w _ _) as [sf|e]; [|discriminate]. cbn [bind] in H.
  destruct (slider_float w _ _ _) as [rr|e]; [|discriminate]. cbn [bind] in H.
  destruct (filter rated data) as [|r d] eqn:E; [discriminate|].
  cbn [col map int_min int_max int_ bind] in H.
  destruct (slider_int w _ _ _) as [sr|e]; [|discriminate].
  cbn [bind] in H. injection H as <-.
  split; [reflexivity|]. split; [discriminate | reflexivity].
Qed.

Lemma untouched_view_witness :
  returns_default untouched
  /\ sidebar untouched unrated_sample = Ok (filter rated unrated_sample)
  /\ filter rated unrated_sample <> []
  /\ key_metrics (filter rated unrated_sample)
     = key_metrics (filter rated unrated_sample).
Proof.
  split; [exact untouched_returns_default|]. split; [reflexivity|].
  exact (proj2 (untouched_view untouched unrated_sample
                  (filter rated unrated_sample)
                  untouched_returns_default eq_refl)).
Defined.

Lemma mean_None (series : list float) :
  mean series = None <-> forall v, In v series -> v = None.
Proof.
  unfold mean. split.
  - intros H [q|] Hv; [|reflexivity]. apply dropna_In in Hv.
    destruct (dropna series); [contradiction | discriminate].
  - intros H. destruct (dropna series) as [|q l] eqn:E; [reflexivity|].
    assert (Hq : In (Some q) series) by (apply dropna_In; rewrite E; left; reflexivity).
    apply H in Hq. discriminate.
Qed.

(** X9.  Whatever the widgets return, when the script does not raise, the
    frame it shows is the dataset with some rows deleted, so the total is
    no larger than the size of the dataset; every row shown has a rating;
    and the average rating is NaN exactly when no row is left. *)
Theorem app_view (w : Widgets) (original_data : DataFrame) (out : Dashboard) :
  app w original_data = Ok out ->
  subseq (view out) original_data
  /\ (total_feedbacks (metrics out) <= len original_data)%nat
  /\ (forall r, In r (view out) -> Rating r <> None)
  /\ (avg_rating (metrics out) = None <-> view out = [])
  /\ out = render (view out).
Proof.
  unfold app. destruct (sidebar w original_data) as [data|e] eqn:E; [|discriminate].
  cbn [bind]. intros H. injection H as <-. cbn [view metrics render].
  destruct (sidebar_is_apply_filters _ _ _ E) as [c ->].
  assert (Hsub : subseq (apply_filters c original_data) original_data).
  { rewrite apply_filters_spec. apply subseq_filter. }
  split; [exact Hsub|].
  split; [apply subseq_length; exact Hsub|].
  split; [intros r Hr; apply (apply_filters_rated c original_data r Hr)|].
  split; [|reflexivity].
  cbn [key_metrics avg_rating]. rewrite mean_None. split.
  - intros H. destruct (apply_filters c original_data) as [|r d] eqn:Ed;
      [reflexivity|].
    exfalso. apply (apply_filters_rated c original_data r).
    + rewrite Ed. left. reflexivity.
    + apply H. left. reflexivity.
  - intros ->. intros v [].
Qed.

Lemma app_view_witness :
  app untouched sample = Ok (render sample)
  /\ subseq (view (render sample)) sample
  /\ (total_feedbacks (metrics (render sample)) <= len sample)%nat
  /\ (forall r, In r (view (render sample)) -> Rating r <> None)
  /\ (avg_rating (metrics (render sample)) = None <-> view (render sample) = [])
  /\ render sample = render (view (render sample)).
Proof.
  assert (H : app untouched sample = Ok (render sample)) by reflexivity.
  split; [exact H | exact (app_view untouched sample (render sample) H)].
Defined.

(** ** The key metrics (lines 91-99) *)

Lemma nunique_le {A} (eqb : A -> A -> bool) (series : list A) :
  (nunique eqb series <= len series)%nat.
Proof.
  unfold nunique, len. revert series.
  assert (H : forall l, (List.length (unique eqb l) <= List.length l)%nat).
  { induction l as [|x l IH]; cbn [unique List.length]; [lia|].
    pose proof (filter_length_le (fun y => negb (eqb x y)) (unique eqb l)). lia. }
  exact H.
Qed.

(** X10.  On every frame the numbers of distinct subjects, of distinct
    students and of comments are no larger than the total; the numbers of
    distinct subjects and students are zero only on the empty frame; and
    the average rating is NaN exactly when no row has a rating. *)
Theorem key_metrics_bounds (data : DataFrame) :
  let m := key_metrics data in
  total_feedbacks m = len data
  /\ (unique_subjects m <= total_feedbacks m)%nat
  /\ (total_students m <= total_feedbacks m)%nat
  /\ (total_comments m <= total_feedbacks m)%nat
  /\ (unique_subjects m = 0%nat <-> data = [])
  /\ (total_students m = 0%nat <-> data = [])
  /\ (avg_rating m = None <-> forall r, In r data -> Rating r = None).
Proof.
  cbv zeta. split; [reflexivity|].
  split.
  { pose proof (nunique_le String.eqb (col Subject data)) as H.
    unfold col, len in H. rewrite length_map in H. exact H. }
  split.
  { pose proof (nunique_le Z.eqb (col Student_ID data)) as H.
    unfold col, len in H. rewrite length_map in H. exact H. }
  split; [rewrite total_comments_spec; apply filter_length_le|].
  split; [destruct data; cbn; split; congruence|].
  split; [destruct data; cbn; split; congruence|].
  cbn [key_metrics avg_rating]. rewrite mean_None. unfold col. split.
  - intros H r Hr. apply H. apply in_map. exact Hr.
  - intros H v Hv. apply in_map_iff in Hv. destruct Hv as (r & <- & Hr). auto.
Qed.

(** ** Comments (lines 99 and 227-229) *)

Lemma rstrip_truthy (l : list string) :
  truthy (rstrip l) = existsb (fun ch => negb (is_space ch)) l.
Proof.
  induction l as [|ch l IH]; [reflexivity|].
  cbn [rstrip existsb]. rewrite <- IH.
  destruct (rstrip l); cbn [truthy].
  - destruct (is_space ch); reflexivity.
  - apply eq_sym, orb_true_r.
Qed.

Lemma lstrip_nonspace (l : list string) :
  existsb (fun ch => negb (is_space ch)) (lstrip l)
  = existsb (fun ch => negb (is_space ch)) l.
Proof.
  induction l as [|ch l IH]; [reflexivity|].
  cbn [lstrip]. destruct (is_space ch) eqn:E; [|reflexivity].
  cbn [existsb]. rewrite E, IH. reflexivity.
Qed.

Lemma rstrip_In (l : list string) (x : string) : In x (rstrip l) -> In x l.
Proof.
  induction l as [|ch l IH]; [intros []|]. cbn [rstrip].
  destruct (rstrip l) as [|y t].
  - destruct (is_space ch); [intros []|]. intros [<-|[]]. left. reflexivity.
  - intros [<-|H]; [left; reflexivity | right; apply IH; exact H].
Qed.

Lemma lstrip_In (l : list string) (x : string) : In x (lstrip l) -> In x l.
Proof.
  induction l as [|ch l IH]; [intros []|]. cbn [lstrip].
  destruct (is_space ch); [intros H; right; apply IH; exact H | intros H; exact H].
Qed.

(** No character of a string is empty. *)
Lemma chars_nonempty (s : string) (ch : string) :
  In ch (chars s) -> ch <> EmptyString.
Proof.
  remember (String.length s) as n eqn:En.
  assert (Hn : (String.length s <= n)%nat) by lia. clear En.
  revert s Hn ch.
  induction n as [|n IH]; intros s Hn ch; destruct s as [|c1 s1];
    cbn [String.length] in Hn; try lia; cbn [chars]; try (intros []; fail).
  destruct (utf8_len c1) as [|[|[|[|k]]]].
  2:{ intros [<-|H]; [discriminate | refine (IH _ _ _ H); lia]. }
  all: destruct s1 as [|c2 [|c3 [|c4 s4]]]; cbn [String.length] in Hn;
    cbv beta iota;
    (intros [<-|H];
     [discriminate
     | first [contradiction
             | refine (IH _ _ _ H); cbn [String.length]; lia]]).
Qed.

Lemma concat_truthy (sep x : string) (l : list string) :
  truthy_str x = true -> truthy_str (String.concat sep (x :: l)) = true.
Proof.
  intros H. destruct x as [|c x]; [discriminate|].
  destruct l; reflexivity.
Qed.

(** A string is not blank exactly when one of its characters is not
    whitespace. *)
Lemma has_text_spec (s : string) :
  has_text (Some s) = existsb (fun ch => negb (is_space ch)) (chars s).
Proof.
  unfold has_text, strip.
  rewrite <- lstrip_nonspace, <- rstrip_truthy.
  destruct (rstrip (lstrip (chars s))) as [|x l] eqn:E; [reflexivity|].
  cbn [truthy]. apply concat_truthy.
  assert (Hx : In x (chars s)).
  { apply lstrip_In, rstrip_In. rewrite E. left. reflexivity. }
  apply chars_nonempty in Hx. destruct x; [congruence | reflexivity].
Qed.

(** The no-break space, U+00A0, is whitespace: a comment made of it is
    blank. *)
Example has_text_no_break_space :
  has_text (Some (String (ascii_of_nat 194) (String (ascii_of_nat 160) EmptyString)))
  = false
  /\ strip (String " " (String (ascii_of_nat 194) (String (ascii_of_nat 160)
              (String "a" (String (ascii_of_nat 227) (String (ascii_of_nat 128)
                 (String (ascii_of_nat 128) EmptyString)))))))
     = "a"%string.
Proof. split; reflexivity. Qed.

(** X11.  A comment enters the word cloud exactly when it is the comment
    of a row of the frame and holds at least one character that is not
    whitespace, whitespace being the characters [str.strip()] removes. *)
Theorem comments_kept_In (data : DataFrame) (s : string) :
  In s (comments_kept data)
  <-> exists r, In r data /\ Comment r = Some s
                /\ exists ch, In ch (chars s) /\ is_space ch = false.
Proof.
  assert (Hs : forall t, has_text (Some t) = true
                 <-> exists ch, In ch (chars t) /\ is_space ch = false).
  { intros t. rewrite has_text_spec, existsb_exists.
    split; intros (c & H1 & H2); exists c; split; try exact H1.
    - apply negb_true_iff. exact H2.
    - apply negb_true_iff. exact H2. }
  unfold comments_kept. rewrite in_flat_map. split.
  - intros (r & Hr & H). exists r. split; [exact Hr|].
    destruct (Comment r) as [t|] eqn:E; [|cbn in H; contradiction].
    destruct (has_text (Some t)) eqn:Et; [|contradiction].
    destruct H as [<-|[]]. split; [reflexivity | apply Hs; exact Et].
  - intros (r & Hr & E & H). exists r. split; [exact Hr|].
    rewrite E. apply Hs in H. rewrite H. left. reflexivity.
Qed.

(** X12.  The comment metric is the number of comments in the word cloud
    plus the number of comments that are present and blank; so it is never
    smaller than the number of comments in the word cloud. *)
Theorem total_comments_vs_wordcloud (data : DataFrame) :
  total_comments (key_metrics data)
  = (len (comments_kept data)
     + len (filter (fun r => match Comment r with
                             | Some s => negb (truthy_str (strip s))
                             | None => false
                             end) data))%nat
  /\ (len (comments_kept data) <= total_comments (key_metrics data))%nat.
Proof.
  assert (E : total_comments (key_metrics data)
              = (len (comments_kept data)
                 + len (filter (fun r => match Comment r with
                                         | Some s => negb (truthy_str (strip s))
                                         | None => false
                                         end) data))%nat).
  { rewrite total_comments_spec, comments_kept_spec. unfold len.
    induction data as [|r data IH]; [reflexivity|]. cbn [filter].
    unfold has_text at 1. destruct (Comment r) as [s|]; [|exact IH].
    destruct (truthy_str (strip s)); cbn [negb List.length]; rewrite IH; lia. }
  split; [exact E | lia].
Qed.

(** X13.  The text handed to the word cloud is empty exactly when no
    comment is kept, that is, when every comment of the frame is missing
    or blank: the guard on the text skips the word cloud in that case and
    in no other. *)
Theorem comments_text_empty (data : DataFrame) :
  (comments_text data = EmptyString <-> comments_kept data = [])
  /\ (comments_kept data = []
      <-> forall r, In r data -> has_text (Comment r) = false).
Proof.
  split.
  - unfold comments_text. split; [|intros ->; reflexivity].
    intros H. destruct (comments_kept data) as [|s l] eqn:E; [reflexivity|].
    assert (Hs : In s (comments_kept data)) by (rewrite E; left; reflexivity).
    unfold comments_kept in Hs. apply in_flat_map in Hs.
    destruct Hs as (r & _ & Hs).
    destruct (has_text (Comment r)) eqn:Et; [|contradiction].
    destruct (Comment r) as [t|]; [|contradiction].
    destruct Hs as [->|[]].
    pose proof (concat_truthy " " s l) as Hc.
    rewrite H in Hc. cbn in Et. unfold strip in Et.
    assert (Hne : truthy_str s = true).
    { destruct s; [discriminate Et | reflexivity]. }
    specialize (Hc Hne). discriminate.
  - unfold comments_kept. split.
    + intros H r Hr. destruct (has_text (Comment r)) eqn:Et; [|reflexivity].
      exfalso. destruct (Comment r) as [t|] eqn:Ec; [|discriminate].
      assert (Hin : In t (flat_map (fun r => if has_text (Comment r)
                         then match Comment r with Some s => [s] | None => [] end
                         else []) data)).
      { apply in_flat_map. exists r. split; [exact Hr|].
        rewrite Ec, Et. left. reflexivity. }
      rewrite H in Hin. exact Hin.
    + intros H. induction data as [|r data IH]; [reflexivity|].
      cbn [flat_map]. rewrite (H r (or_introl eq_refl)). cbn [app].
      apply IH. intros r' Hr'. apply H. right. exact Hr'.
Qed.

(** ** Counts and averages per subject (lines 125 and 141) *)

Lemma string_eqb_trans (x y z : string) :
  String.eqb x y = true -> String.eqb y z = true -> String.eqb x z = true.
Proof. rewrite !String.eqb_eq. congruence. Qed.

(** X14.  The counts of the table of subject counts are all at least 1
    and add up to the number of rows of the frame. *)
Theorem subject_counts_total (data : DataFrame) :
  list_sum (map snd (subject_counts data)) = len data
  /\ (forall s n, In (s, n) (subject_counts data) -> (1 <= n)%nat).
Proof.
  unfold subject_counts. split.
  - rewrite (Permutation_list_sum
               (Permutation_map snd (value_counts_perm (col Subject data)))).
    rewrite map_map. cbn [snd]. unfold count.
    transitivity (List.length (col Subject data));
      [|unfold col, len; apply length_map].
    exact (groups_partition String.eqb (fun s => s) String.eqb_refl
             string_eqb_trans String.eqb_sym (col Subject data)
             (col Subject data) (fun p H => H)).
  - intros s n H. apply value_counts_In in H. destruct H as [Hs ->].
    unfold count.
    assert (Hin : In s (filter (String.eqb s) (col Subject data))).
    { apply filter_In. split; [exact Hs | apply String.eqb_refl]. }
    destruct (filter (String.eqb s) (col Subject data)); [contradiction|].
    cbn. lia.
Qed.

Lemma float_leb_nan_last_total (a b : float) :
  float_leb_nan_last a b = true \/ float_leb_nan_last b a = true.
Proof.
  destruct a as [x|], b as [y|]; cbn; auto.
  destruct (Qlt_le_dec x y) as [H|H].
  - left. apply Qle_bool_iff, Qlt_le_weak, H.
  - right. apply Qle_bool_iff, H.
Qed.

Lemma float_leb_nan_last_trans (a b c : float) :
  float_leb_nan_last a b = true -> float_leb_nan_last b c = true ->
  float_leb_nan_last a c = true.
Proof.
  destruct a as [x|], b as [y|], c as [z|]; cbn; try congruence.
  rewrite !Qle_bool_iff. apply Qle_trans.
Qed.

Lemma dropna_length (p : Row -> bool) (data : DataFrame) :
  len (dropna (col Rating (filter p data)))
  = len (filter p (filter rated data)).
Proof.
  unfold len, col. induction data as [|r data IH]; [reflexivity|].
  cbn [filter]. unfold rated at 1.
  destruct (p r) eqn:Ep, (Rating r) eqn:Er; cbn [map dropna filter List.length];
    rewrite ?Er, ?Ep; cbn [dropna List.length]; rewrite ?IH; reflexivity.
Qed.

(** X15.  The table of averages per subject has one row per subject of
    the frame; a row holds the mean of the ratings of the rows of its
    subject and the number of those ratings, and its mean is NaN exactly
    when that number is zero; the rows are in ascending order of mean with
    the NaN means last; and the numbers of ratings add up to the number of
    rows of the frame that have a rating. *)
Theorem subject_avg_table_spec (data : DataFrame) :
  Permutation (map fst (subject_avg data)) (unique String.eqb (col Subject data))
  /\ (forall s m n, In (s, (m, n)) (subject_avg data) ->
        In s (col Subject data)
        /\ m = mean (col Rating (group_of_subject s data))
        /\ n = len (filter rated (group_of_subject s data))
        /\ (m = None <-> n = 0%nat))
  /\ StronglySorted
       (fun a b => float_leb_nan_last (fst (snd a)) (fst (snd b)) = true)
       (subject_avg data)
  /\ list_sum (map (fun row => snd (snd row)) (subject_avg data))
     = len (filter rated data).
Proof.
  unfold subject_avg, groupby_keys.
  set (keys := sort String.leb (unique String.eqb (col Subject data))).
  set (row := fun s => (s, (mean (col Rating (group_of_subject s data)),
                            len (dropna (col Rating (group_of_subject s data)))))).
  set (by_mean := fun a b : string * (float * nat) =>
                    float_leb_nan_last (fst (snd a)) (fst (snd b))).
  assert (Hlen : forall s, len (dropna (col Rating (group_of_subject s data)))
                           = len (filter rated (group_of_subject s data))).
  { intros s. unfold len. clear.
    induction (group_of_subject s data) as [|r d IH]; [reflexivity|].
    cbn [col map filter]. unfold rated at 1.
    destruct (Rating r); cbn [dropna List.length]; unfold col in IH;
      rewrite IH; reflexivity. }
  split; [|split; [|split]].
  - rewrite (Permutation_map fst (sort_perm by_mean (map row keys))).
    rewrite map_map. cbn [row fst]. rewrite map_id. apply sort_perm.
  - intros s m n H. rewrite (sort_In by_mean), in_map_iff in H.
    destruct H as (s' & E & Hs'). inversion E; subst s' m n. clear E.
    split.
    { unfold keys in Hs'. rewrite sort_In, (unique_In _ String.eqb_eq) in Hs'.
      exact Hs'. }
    split; [reflexivity|]. split; [apply Hlen|].
    unfold mean, len.
    destruct (dropna (col Rating (group_of_subject s data))); cbn;
      split; congruence.
  - apply (sort_sorted by_mean).
    + intros x y. apply float_leb_nan_last_total.
    + intros x y z. apply float_leb_nan_last_trans.
  - rewrite (Permutation_list_sum
               (Permutation_map _ (sort_perm by_mean (map row keys)))).
    rewrite map_map. cbn [row snd].
    rewrite (Permutation_list_sum
               (Permutation_map _ (sort_perm String.leb
                                     (unique String.eqb (col Subject data))))).
    rewrite (map_ext _ (fun s => List.length
                          (filter (fun r => String.eqb s (Subject r))
                                  (filter rated data)))).
    2:{ intros s. unfold group_of_subject. apply dropna_length. }
    apply (groups_partition String.eqb Subject String.eqb_refl
             string_eqb_trans String.eqb_sym (col Subject data)).
    intros r Hr. apply filter_In in Hr. unfold col. apply in_map. apply Hr.
Qed.

(** ** Counts per subject and rating (line 172) *)

Lemma list_sum_flat_map {A B} (g : A -> list B) (f : B -> nat) (l : list A) :
  list_sum (map f (flat_map g l))
  = list_sum (map (fun a => list_sum (map f (g a))) l).
Proof.
  induction l as [|a l IH]; [reflexivity|].
  cbn [flat_map map]. rewrite map_app, list_sum_app, IH. reflexivity.
Qed.

Lemma In_length_pos {A} (l : list A) (x : A) :
  In x l -> (1 <= List.length l)%nat.
Proof. destruct l; [contradiction | cbn; lia]. Qed.

Lemma observed_length (data : DataFrame) :
  len (observed data) = len (filter rated data).
Proof.
  unfold len. induction data as [|r data IH]; [reflexivity|].
  cbn [observed filter]. unfold rated at 1.
  destruct (Rating r); cbn [List.length]; rewrite IH; reflexivity.
Qed.

(** The counts of the ratings of one subject, over the ratings that occur
    with it, add up to the number of rated rows of the subject. *)
Lemma group_counts_total (s : string) (obs : list (string * Q)) :
  list_sum (map (fun v => cell_count s v obs)
                (groupby_keys Qeq_bool Qle_bool
                   (map snd (filter (fun p => String.eqb s (fst p)) obs))))
  = row_total s obs.
Proof.
  unfold groupby_keys, row_total, cell_count, len.
  set (items := filter (fun p => String.eqb s (fst p)) obs).
  rewrite (Permutation_list_sum
             (Permutation_map _ (sort_perm Qle_bool
                                   (unique Qeq_bool (map snd items))))).
  rewrite <- (groups_partition Qeq_bool snd Qeq_bool_refl Qeq_bool_trans
                Qeq_bool_comm (map snd items) items).
  - f_equal. apply map_ext. intros v. unfold items. rewrite filter_filter.
    reflexivity.
  - intros p Hp. apply in_map. exact Hp.
Qed.

(** X16.  The table of counts per subject and rating holds only pairs
    that occur: every row has a count of at least 1, which is the number of
    rows of the frame with that subject and a rating equal to that of the
    row; and the counts add up to the number of rows of the frame that have
    a rating. *)
Theorem subject_rating_counts_spec (data : DataFrame) :
  (forall s v n, In (s, v, n) (subject_rating_counts data) ->
     (1 <= n)%nat
     /\ n = len (filter (fun r => String.eqb s (Subject r)
                                  && match Rating r with
                                     | Some q => Qeq_bool v q
                                     | None => false
                                     end) data)
     /\ exists r, In r data /\ Subject r = s /\ Rating r = Some v)
  /\ list_sum (map snd (subject_rating_counts data)) = len (filter rated data).
Proof.
  unfold subject_rating_counts. set (obs := observed data).
  assert (Hcell : forall s v,
            cell_count s v obs
            = len (filter (fun r => String.eqb s (Subject r)
                                    && match Rating r with
                                       | Some q => Qeq_bool v q
                                       | None => false
                                       end) data)).
  { intros s v. unfold cell_count, len, obs. clear.
    induction data as [|r data IH]; [reflexivity|]. cbn [observed filter].
    destruct (Rating r) as [q|]; cbn [filter fst snd].
    - destruct (String.eqb s (Subject r) && Qeq_bool v q);
        cbn [List.length]; rewrite IH; reflexivity.
    - rewrite andb_false_r. exact IH. }
  split.
  - intros s v n H. apply in_flat_map in H. destruct H as (s' & _ & H).
    apply in_map_iff in H. destruct H as (v' & E & Hv).
    inversion E; subst s' v' n. clear E.
    unfold groupby_keys in Hv.
    rewrite sort_In in Hv.
    assert (Hv' : In v (map snd (filter (fun p => String.eqb s (fst p)) obs))).
    { eapply subseq_In; [apply unique_subseq | exact Hv]. }
    apply in_map_iff in Hv'. destruct Hv' as ([s0 q] & Eq & Hp).
    cbn in Eq. subst q. apply filter_In in Hp. destruct Hp as [Hp Hs].
    cbn in Hs. apply String.eqb_eq in Hs. subst s0.
    split; [|split; [apply Hcell | apply observed_In; exact Hp]].
    unfold cell_count, len.
    assert (Hin : In (s, v) (filter (fun p => String.eqb s (fst p)
                                              && Qeq_bool v (snd p)) obs)).
    { apply filter_In. split; [exact Hp|]. cbn.
      rewrite String.eqb_refl, Qeq_bool_refl. reflexivity. }
    apply (In_length_pos _ _ Hin).
  - rewrite list_sum_flat_map.
    rewrite (map_ext _ (fun s => row_total s obs)).
    2:{ intros s. rewrite map_map. cbn [snd]. apply group_counts_total. }
    unfold groupby_keys.
    rewrite (Permutation_list_sum
               (Permutation_map _ (sort_perm String.leb
                                     (unique String.eqb (map fst obs))))).
    rewrite <- observed_length. fold obs. unfold row_total, len.
    apply (groups_partition String.eqb fst String.eqb_refl
             string_eqb_trans String.eqb_sym (map fst obs) obs).
    intros p Hp. apply in_map. exact Hp.
Qed.

(** ** Shares of the ratings per subject, cell by cell (line 203) *)

Lemma percentage_zero (t : nat) : percentage 0 t = 0%Q.
Proof. reflexivity. Qed.

Lemma share_pos (c t : nat) : (1 <= c)%nat -> (1 <= t)%nat -> (0 < share c t)%Q.
Proof.
  intros Hc Ht. unfold share, Qdiv. apply Qmult_lt_0_compat.
  - change 0%Q with (inject_Z 0). rewrite <- Zlt_Qlt. lia.
  - apply Qinv_lt_0_compat. change 0%Q with (inject_Z 0). rewrite <- Zlt_Qlt. lia.
Qed.

Lemma percentage_pos (c t : nat) :
  (1 <= c)%nat -> (1 <= t)%nat -> (0 < percentage c t)%Q.
Proof.
  intros Hc Ht. pose proof (share_pos c t Hc Ht) as Hs.
  destruct (percentage_bounds c t) as [H _]. unfold u in H. lra.
Qed.

Lemma percentage_nonneg (c t : nat) : (0 <= percentage c t)%Q.
Proof.
  pose proof (share_nonneg c t) as Hs.
  destruct (percentage_bounds c t) as [H _]. unfold u in H. lra.
Qed.

(** A quotient of two equal counts rounds to 1. *)
Lemma rnd_pos_diag (p : positive) : rnd_pos p p = 1%Q.
Proof.
  unfold rnd_pos.
  set (a := Z.log2 (Zpos p)).
  assert (Ha : 0 <= a) by apply Z.log2_nonneg.
  assert (HA : 0 < 2 ^ a) by (apply Z.pow_pos_nonneg; lia).
  assert (HP : Zpos p * 2 ^ (a + 53) = 2 ^ 52 * (2 * (Zpos p * 2 ^ a))).
  { rewrite Z.pow_add_r by lia. change (2 ^ 53) with (2 ^ 52 * 2). ring. }
  assert (T : (2 ^ 53 * (Zpos p * 2 ^ a) <=? Zpos p * 2 ^ (a + 53)) = true).
  { apply Z.leb_le. rewrite HP. change (2 ^ 53) with (2 ^ 52 * 2). lia. }
  rewrite T. replace (a + 52 - a) with 52 by lia.
  assert (Hm : round_half_even (Zpos p * 2 ^ (a + 53)) (2 * (Zpos p * 2 ^ a))
               = 2 ^ 52).
  { unfold round_half_even. rewrite HP.
    rewrite Z.div_mul, Z.mod_mul by lia.
    destruct (Z.compare_spec (2 * 0) (2 * (Zpos p * 2 ^ a))); [lia | reflexivity | lia]. }
  rewrite Hm. reflexivity.
Qed.

Lemma percentage_full (t : nat) : (1 <= t)%nat -> percentage t t = 100%Q.
Proof.
  intros Ht. destruct t as [|k]; [lia|].
  unfold percentage, Qdiv. cbn [Z.of_nat]. set (p := Pos.of_succ_nat k).
  replace (rnd (inject_Z (Z.pos p) * / inject_Z (Z.pos p))) with 1%Q;
    [reflexivity|].
  unfold rnd. cbn [inject_Z Qinv Qmult Qnum Qden].
  rewrite Z.mul_1_r, Pos.mul_1_l. symmetry. apply rnd_pos_diag.
Qed.

(** X17.  Every row of the table of rating shares has the same columns:
    the ratings of the frame, each once up to equality of numbers, in
    ascending order.  A cell is never negative, and it is 0 exactly when
    no row of the frame has the subject of the row together with the
    rating of the column. *)
Theorem rating_subject_cells (data : DataFrame) (s : string)
        (cells : list (Q * Q)) :
  In (s, cells) (rating_subject data) ->
  map fst cells = groupby_keys Qeq_bool Qle_bool (dropna (col Rating data))
  /\ StronglySorted (fun a b => (a <= b)%Q) (map fst cells)
  /\ (forall r q, In r data -> Rating r = Some q ->
        exists v, In v (map fst cells) /\ (v == q)%Q)
  /\ forall v p, In (v, p) cells ->
       (0 <= p)%Q
       /\ (p = 0%Q <->
           forall r q, In r data -> Subject r = s -> Rating r = Some q ->
                       ~ (v == q)%Q).
Proof.
  unfold rating_subject. set (obs := observed data).
  assert (Hobs : map snd obs = dropna (col Rating data)).
  { unfold obs, col. clear. induction data as [|r data IH]; [reflexivity|].
    cbn [observed map]. destruct (Rating r); cbn [map dropna snd];
      rewrite IH; reflexivity. }
  rewrite Hobs. set (columns := groupby_keys Qeq_bool Qle_bool _).
  intros H. apply in_map_iff in H. destruct H as (s' & E & Hs).
  inversion E; subst s' cells. clear E.
  assert (Ht : (1 <= row_total s obs)%nat).
  { unfold groupby_keys in Hs.
    rewrite sort_In, (unique_In _ String.eqb_eq), in_map_iff in Hs.
    destruct Hs as (p & Ep & Hp). unfold row_total, len.
    apply (In_length_pos _ p). apply filter_In. split; [exact Hp|].
    rewrite Ep. apply String.eqb_refl. }
  split; [rewrite map_map; cbn [fst]; apply map_id|].
  split.
  { rewrite map_map. cbn [fst]. rewrite map_id. unfold columns, groupby_keys.
    eapply StronglySorted_impl; [|apply sort_sorted].
    - intros x y Hxy. apply Qle_bool_iff. exact Hxy.
    - intros x y. destruct (Qlt_le_dec x y) as [Hlt|Hle];
        [left; apply Qle_bool_iff, Qlt_le_weak, Hlt | right; apply Qle_bool_iff, Hle].
    - intros x y z. rewrite !Qle_bool_iff. apply Qle_trans. }
  split.
  { intros r q Hr Hq. rewrite map_map. cbn [fst]. rewrite map_id.
    assert (Hin : In q (dropna (col Rating data))).
    { apply dropna_In. rewrite <- Hq. unfold col. apply in_map. exact Hr. }
    pose proof (unique_hits Qeq_bool Qeq_bool_trans Qeq_bool_comm
                  (dropna (col Rating data)) q) as Hhit.
    assert (Hex : existsb (fun k => Qeq_bool k q) (dropna (col Rating data)) = true).
    { apply existsb_exists. exists q. split; [exact Hin | apply Qeq_bool_refl]. }
    rewrite Hex in Hhit.
    destruct (filter (fun k => Qeq_bool k q)
                     (unique Qeq_bool (dropna (col Rating data)))) as [|v l] eqn:Ef;
      [discriminate|].
    assert (Hv : In v (filter (fun k => Qeq_bool k q)
                              (unique Qeq_bool (dropna (col Rating data)))))
      by (rewrite Ef; left; reflexivity).
    apply filter_In in Hv. destruct Hv as [Hv1 Hv2].
    exists v. split; [|apply Qeq_bool_iff; exact Hv2].
    unfold columns, groupby_keys. apply sort_In. exact Hv1. }
  intros v p Hvp. apply in_map_iff in Hvp. destruct Hvp as (v' & E & _).
  inversion E; subst v' p. clear E.
  split; [apply percentage_nonneg|].
  assert (Hcount : cell_count s v obs = 0%nat
                   <-> forall r q, In r data -> Subject r = s ->
                                   Rating r = Some q -> ~ (v == q)%Q).
  { unfold cell_count, len. split.
    - intros H0 r q Hr Hsub Hq Heq.
      assert (Hin : In (s, q) (filter (fun p => String.eqb s (fst p)
                                                && Qeq_bool v (snd p)) obs)).
      { apply filter_In. split.
        - apply observed_In. exists r. auto.
        - cbn. rewrite String.eqb_refl. apply Qeq_bool_iff. exact Heq. }
      apply In_length_pos in Hin. lia.
    - intros H0. rewrite (filter_false _ obs); [reflexivity|].
      intros [s0 q] Hp. cbn.
      destruct (String.eqb s s0) eqn:Es; [|reflexivity].
      destruct (Qeq_bool v q) eqn:Eq; [|reflexivity].
      exfalso. apply String.eqb_eq in Es. subst s0.
      apply observed_In in Hp. destruct Hp as (r & H1 & H2 & H3).
      apply (H0 r q H1 H2 H3). apply Qeq_bool_iff. exact Eq. }
  rewrite <- Hcount. split.
  - intros Hp. destruct (cell_count s v obs) as [|c]; [reflexivity|].
    exfalso. pose proof (percentage_pos (S c) (row_total s obs)) as Hpos.
    rewrite Hp in Hpos. apply (Qlt_irrefl 0). apply Hpos; [lia | exact Ht].
  - intros ->. apply percentage_zero.
Qed.

Lemma rating_subject_cells_witness :
  In ("Math"%string, [(3%Q, 0%Q); (4%Q, 50%Q); (5%Q, 50%Q)]) (rating_subject sample)
  /\ map fst [(3%Q, 0%Q); (4%Q, 50%Q); (5%Q, 50%Q)]
     = groupby_keys Qeq_bool Qle_bool (dropna (col Rating sample)).
Proof.
  assert (H : In ("Math"%string, [(3%Q, 0%Q); (4%Q, 50%Q); (5%Q, 50%Q)])
                 (rating_subject sample)) by (right; left; reflexivity).
  split; [exact H|].
  exact (proj1 (rating_subject_cells sample _ _ H)).
Defined.

(** X18.  When all the rated rows of a subject have the same rating, the
    cell of that rating in the row of the subject is exactly 100 and every
    other cell of the row is 0. *)
Theorem rating_subject_single_rating (data : DataFrame) (s : string)
        (cells : list (Q * Q)) (v p : Q) :
  In (s, cells) (rating_subject data) ->
  In (v, p) cells ->
  (forall r q, In r data -> Subject r = s -> Rating r = Some q -> (v == q)%Q) ->
  p = 100%Q
  /\ forall v' p', In (v', p') cells -> ~ (v' == v)%Q -> p' = 0%Q.
Proof.
  unfold rating_subject. set (obs := observed data).
  intros H Hvp Hall. apply in_map_iff in H. destruct H as (s' & E & Hs).
  inversion E; subst s' cells. clear E.
  assert (Ht : (1 <= row_total s obs)%nat).
  { unfold groupby_keys in Hs.
    rewrite sort_In, (unique_In _ String.eqb_eq), in_map_iff in Hs.
    destruct Hs as (x & Ex & Hx). unfold row_total, len.
    apply (In_length_pos _ x). apply filter_In. split; [exact Hx|].
    rewrite Ex. apply String.eqb_refl. }
  assert (Hitem : forall x, In x obs -> String.eqb s (fst x) = true ->
                            (v == snd x)%Q).
  { intros [s0 q] Hx Es. cbn in Es. apply String.eqb_eq in Es. subst s0.
    apply observed_In in Hx. destruct Hx as (r & H1 & H2 & H3).
    apply (Hall r q H1 H2 H3). }
  split.
  - apply in_map_iff in Hvp. destruct Hvp as (v0 & E & _).
    inversion E; subst v0 p. clear E.
    assert (Hc : cell_count s v obs = row_total s obs).
    { unfold cell_count, row_total. f_equal. apply filter_ext_in.
      intros x Hx. destruct (String.eqb s (fst x)) eqn:Es; [|reflexivity].
      cbn. apply Qeq_bool_iff. apply Hitem; assumption. }
    rewrite Hc. apply percentage_full. exact Ht.
  - intros v' p' Hvp' Hne. apply in_map_iff in Hvp'.
    destruct Hvp' as (v0 & E & _). inversion E; subst v0 p'. clear E.
    assert (Hc : cell_count s v' obs = 0%nat).
    { unfold cell_count, len. rewrite (filter_false _ obs); [reflexivity|].
      intros x Hx. destruct (String.eqb s (fst x)) eqn:Es; [|reflexivity].
      cbn. destruct (Qeq_bool v' (snd x)) eqn:Eq; [|reflexivity].
      exfalso. apply Hne. apply Qeq_bool_iff in Eq. rewrite Eq.
      symmetry. apply Hitem; assumption. }
    rewrite Hc. apply percentage_zero.
Qed.

Lemma rating_subject_single_rating_witness :
  In ("Art"%string, [(3%Q, 100%Q); (4%Q, 0%Q); (5%Q, 0%Q)]) (rating_subject sample)
  /\ 100%Q = 100%Q
  /\ forall v' p', In (v', p') [(3%Q, 100%Q); (4%Q, 0%Q); (5%Q, 0%Q)] ->
                   ~ (v' == 3)%Q -> p' = 0%Q.
Proof.
  assert (H : In ("Art"%string, [(3%Q, 100%Q); (4%Q, 0%Q); (5%Q, 0%Q)])
                 (rating_subject sample)) by (left; reflexivity).
  split; [exact H|].
  apply (rating_subject_single_rating sample "Art" _ 3%Q 100%Q H).
  - left. reflexivity.
  - intros r q [<-|[<-|[<-|[]]]] Hs Hq; try discriminate Hs.
    injection Hq as <-. reflexivity.
Defined.

(** ** Narrowing a range *)

(** X19.  Filtering by one range and then by another is filtering by
    their intersection, for student identifiers and for ratings: moving a
    slider on an already filtered frame cannot bring a row back. *)
Theorem ranges_compose_by_intersection (data : DataFrame) :
  (forall a b a' b',
     filter_student (a, b) (filter_student (a', b') data)
     = filter_student (Z.max a a', Z.min b b') data)
  /\ (forall a b a' b',
        filter_rating (Some a, Some b) (filter_rating (Some a', Some b') data)
        = filter_rating (Some (Qmax a a'), Some (Qmin b b')) data).
Proof.
  split; intros a b a' b'.
  - rewrite !filter_student_spec, filter_filter. apply filter_ext. intros r.
    cbn [fst snd]. apply eq_true_iff_eq.
    rewrite !andb_true_iff, !Z.leb_le. lia.
  - rewrite !filter_rating_spec, filter_filter. apply filter_ext. intros r.
    cbn [fst snd]. apply eq_true_iff_eq.
    unfold float_ge, float_le. destruct (Rating r) as [q|].
    + rewrite !andb_true_iff, !Qle_bool_iff, Q.max_lub_iff, Q.min_glb_iff. tauto.
    + cbn. tauto.
Qed.
